(** * Dashboard notification relay: [DashboardAutomationEventListener.messageSent]

    A shallow embedding of [src/lib/dashboard.ts].  The listener is a single
    method; its local bindings ([ignore], [slackMessage], [actions], [msg],
    [users], [dest], [messages]) become definitions of the same names, and the
    two collaborators reached through [ctx] (the graph client and the message
    client) become operations of a small logging monad. *)

From Stdlib Require Import String Ascii List ZArith Bool Arith Lia.
Import ListNotations.
Local Open Scope string_scope.
Local Open Scope list_scope.

(** ** JavaScript values the listener inspects *)

Module Js.

(** A string is truthy unless it is empty. *)
Definition truthy_string (s : string) : bool :=
  match s with
  | EmptyString => false
  | String _ _ => true
  end.

(** A number is truthy unless it is zero (timestamps are integers). *)
Definition truthy_number (n : Z) : bool := negb (Z.eqb n 0).

(** [s.includes(sub)]. *)
Fixpoint includes (s sub : string) : bool :=
  String.prefix sub s ||
  match s with
  | EmptyString => false
  | String _ s' => includes s' sub
  end.

(** What a property read that ends a path can give: nothing, [null], or the
    string. *)
Inductive Leaf : Type :=
| Undefined
| Null
| Str (s : string).

Definition truthy (v : Leaf) : bool :=
  match v with
  | Str s => truthy_string s
  | Undefined | Null => false
  end.

(** The text a template literal [`${v}`] splices in. *)
Definition template (v : Leaf) : string :=
  match v with
  | Undefined => "undefined"
  | Null => "null"
  | Str s => s
  end.

(** Values of command parameters, which the client types as [any].  The
    listener asks a value two things only: whether it is truthy and, if so,
    what [toString()] gives.  A value that is none of the first four (a
    number, an array, an object) is kept as the answers to both. *)
Inductive Value : Type :=
| VUndefined
| VNull
| VBool (b : bool)
| VString (s : string)
| VOther (is_truthy : bool) (as_string : string).

Definition truthy_value (v : Value) : bool :=
  match v with
  | VUndefined | VNull => false
  | VBool b => b
  | VString s => truthy_string s
  | VOther t _ => t
  end.

(** [v.toString()], read only where [v] is truthy. *)
Definition toString (v : Value) : string :=
  match v with
  | VString s => s
  | VBool true => "true"
  | VBool false => "false"
  | VNull => "null"
  | VUndefined => "undefined"
  | VOther _ str => str
  end.

(** An object together with its identity.  Two object literals evaluated at
    different times are different objects, whatever their fields hold. *)
Record Obj (A : Type) : Type := mkObj { addr : nat; fields : A }.
Arguments mkObj {A} _ _.
Arguments addr {A} _.
Arguments fields {A} _.

(** SameValueZero on object references. *)
Definition same_object {A} (x y : Obj A) : bool := Nat.eqb (addr x) (addr y).

(** [vals.map(v => ({ ... }))]: one fresh object per element, allocated in
    order from the next free address. *)
Fixpoint alloc_map {A B} (f : A -> B) (next : nat) (vals : list A) : list (Obj B) :=
  match vals with
  | [] => []
  | v :: rest => mkObj next (f v) :: alloc_map f (S next) rest
  end.

End Js.

(** ** The lodash functions the listener calls *)

Module Lodash.

(** An element of an array handed to [_.flatten] is itself an array, which
    is spliced in, or any other value, which is kept as it is. *)
Inductive Flattenable (A : Type) : Type :=
| IsArray (l : list A)
| NotArray (a : A).
Arguments IsArray {A} _.
Arguments NotArray {A} _.

(** [_.flatten]: a single level. *)
Fixpoint flatten {A} (array : list (Flattenable A)) : list A :=
  match array with
  | [] => []
  | IsArray l :: rest => l ++ flatten rest
  | NotArray a :: rest => a :: flatten rest
  end.

(** [_.uniq]: walk the array and keep a value unless the result already
    holds one that is the same under [same]. *)
Definition uniq_step {A} (same : A -> A -> bool) (result : list A) (value : A) : list A :=
  if existsb (same value) result then result else result ++ [value].

Definition uniq {A} (same : A -> A -> bool) (array : list A) : list A :=
  fold_left (uniq_step same) array [].

End Lodash.

(** ** Data the listener receives *)

(** [CommandReference]: the remote command an action is bound to.  The
    parameter object is kept as its own keys in enumeration order. *)
Record CommandReference : Type := {
  cmd_name : string;
  cmd_parameters : option (list (string * Js.Value))
}.

(** An attachment action after the listener's cast to
    [CommandReferencingAction], for the actions that do have a command.  The
    cast itself checks nothing; [Raw], further down, has the actions as they
    come and the [TypeError] for one without a command. *)
Record CommandReferencingAction : Type := {
  cra_text : string;
  command : CommandReference
}.

(** An attachment; [actions] may be missing, and an entry of it may be
    [null] or [undefined] ([None]). *)
Record Attachment : Type := {
  fallback : string;
  att_actions : option (list (option CommandReferencingAction))
}.

Record SlackMessage : Type := {
  text : option string;
  attachments : option (list Attachment)
}.

(** The [message] argument: a string or an object. *)
Inductive Message : Type :=
| MString (s : string)
| MObject (o : SlackMessage).

Module Options.
(** [MessageOptions], with the [dashboard] flag the listener reads through
    a cast; [Some false] is the boolean [false], the only value that
    [=== false] accepts. *)
Record t : Type := {
  id : option string;
  ts : option Z;
  ttl : option Z;
  post : option string;
  dashboard : option bool
}.
End Options.
Definition MessageOptions : Type := Options.t.

(** A destination after the cast to [SlackDestination]. *)
Record Destination : Type := {
  team : string;
  users : option (list string);
  channels : option (list string)
}.

(** The [destinations] argument: missing, one destination, or an array. *)
Inductive Destinations : Type :=
| NoDestinations
| OneDestination (d : Destination)
| DestinationArray (ds : list Destination).

(** The element type of [users] and the variables of [LoginQuery]. *)
Record ChatUser : Type := { teamId : string; screenName : string }.

(** The answer to [LoginQuery]; every level below the root may be absent. *)
Record GitHubIdNode : Type := { login : Js.Leaf }.
Record PersonNode : Type := { gitHubId : option GitHubIdNode }.
Record MemberNode : Type := { person : option PersonNode }.
Record ChatTeamNode : Type := { members : option (list MemberNode) }.
Record ChatId : Type := { ChatTeam : option (list ChatTeamNode) }.

(** [ctx.source].  The slack block is read for a slack origin only; the
    [login] of the web block is read by the earlier revision only. *)
Record Identity : Type := { sub : Js.Leaf }.
Record WebSource : Type := { identity : option Identity; web_login : Js.Leaf }.
Record SlackSource : Type := { slack_team_id : string; slack_user_name : string }.
Record Source : Type := {
  user_agent : string;
  web : option WebSource;
  slack : SlackSource
}.

(** [HandlerContext]: the workspace, the origin of the request, the name of
    the calling registration, and the graph client as the answers it gives. *)
Record HandlerContext : Type := {
  workspaceId : string;
  source : option Source;
  context_name : string;
  graphClient : ChatUser -> option ChatId
}.

(** ** Records the listener builds *)

Inductive ContentType : Type :=
| TextPlain       (* "text/plain" *)
| SlackJson.      (* "application/x-atomist-slack+json" *)

Inductive ActionType : Type := Button | Menu.

Record ActionParameter : Type := { name : string; value : option string }.

Record NotifactionAction : Type := {
  a_text : string;
  a_type : ActionType;
  a_registration : string;
  a_command : string;
  a_parameters : list ActionParameter
}.

Record Recipient : Type := { address : string }.

Record Notification : Type := {
  ts : Z;
  key : string;
  ttl : option Z;
  post : option string;
  contentType : ContentType;
  body : string;
  actions : list NotifactionAction;
  recipient : option Recipient
}.

Inductive RootType : Type :=
| NotificationRootType
| UserNotificationRootType.

(** ** Effects

    The listener's effects are the identity lookups it sends to the graph
    client and the events it hands to the message client.  A computation
    threads the log of both.  Promises that the source starts side by side
    are run here in the order the source starts them, which fixes the order
    inside each log and nothing else. *)

Record World (E : Type) : Type := mkWorld {
  lookups : list ChatUser;
  published : list E
}.
Arguments mkWorld {E} _ _.
Arguments lookups {E} _.
Arguments published {E} _.

Definition Promise (E A : Type) : Type := World E -> A * World E.

Definition resolve {E A} (a : A) : Promise E A := fun w => (a, w).

Definition bind {E A B} (p : Promise E A) (k : A -> Promise E B) : Promise E B :=
  fun w => let (a, w') := p w in k a w'.

Declare Scope promise_scope.
Delimit Scope promise_scope with promise.
Notation "x <- p ;; k" := (bind p (fun x => k))
  (at level 61, p at next level, right associativity) : promise_scope.
Notation "p ;; k" := (bind p (fun _ => k))
  (at level 61, right associativity) : promise_scope.
Local Open Scope promise_scope.

(** [ctx.graphClient.query({ query: LoginQuery, variables })]. *)
Definition query {E} (ctx : HandlerContext) (variables : ChatUser)
  : Promise E (option ChatId) :=
  fun w => (graphClient ctx variables,
            mkWorld (lookups w ++ [variables]) (published w)).

(** [ctx.messageClient.send(record, addressEvent(rootType))]. *)
Definition send {E} (event : E) : Promise E unit :=
  fun w => (tt, mkWorld (lookups w) (published w ++ [event])).

(** [Promise.all(messages).then(() => Promise.resolve())]. *)
Fixpoint Promise_all {E} (messages : list (Promise E unit)) : Promise E unit :=
  match messages with
  | [] => resolve tt
  | m :: rest => m ;; Promise_all rest
  end.

Definition no_effects {E} : World E := mkWorld [] [].

(** The log a computation leaves when it starts from an empty one. *)
Definition run {E A} (p : Promise E A) : World E := snd (p no_effects).

(** ** The listener *)

(** [array.filter(a => a)] on entries that are objects, [null] or
    [undefined]. *)
Fixpoint filter_truthy {A} (array : list (option A)) : list A :=
  match array with
  | [] => []
  | Some a :: rest => a :: filter_truthy rest
  | None :: rest => filter_truthy rest
  end.

(** [_.get(chatId, "ChatTeam[0].members[0].person.gitHubId.login")]: the walk
    stops with [undefined] at the first level that is absent; a [login] that
    is there is returned as it is, [null] included. *)
Definition get_login (chatId : option ChatId) : Js.Leaf :=
  match chatId with
  | None => Js.Undefined
  | Some c =>
    match ChatTeam c with
    | Some (t :: _) =>
      match members t with
      | Some (m :: _) =>
        match person m with
        | Some p =>
          match gitHubId p with
          | Some g => login g
          | None => Js.Undefined
          end
        | None => Js.Undefined
        end
      | _ => Js.Undefined
      end
    | _ => Js.Undefined
    end
  end.

(** The third argument of [_.get] replaces an [undefined] result only. *)
Definition get_or (result defaultValue : Js.Leaf) : Js.Leaf :=
  match result with
  | Js.Undefined => defaultValue
  | _ => result
  end.

(** The module-level bindings the listener reads: [cluster.isWorker], and
    what [guid()] and [Date.now()] give when they are called. *)
Record Runtime : Type := {
  isWorker : bool;
  guid : string;
  Date_now : Z
}.

Record DashboardAutomationEventListener : Type := { clustered : bool }.

Definition Event : Type := (Notification * RootType)%type.

(** [_.cloneDeep(msg)]: a copy of the record and of everything below it. *)
Definition cloneDeep_parameter (p : ActionParameter) : ActionParameter :=
  {| name := name p; value := value p |}.

Definition cloneDeep_action (a : NotifactionAction) : NotifactionAction :=
  {| a_text := a_text a;
     a_type := a_type a;
     a_registration := a_registration a;
     a_command := a_command a;
     a_parameters := map cloneDeep_parameter (a_parameters a) |}.

Definition cloneDeep (msg : Notification) : Notification :=
  {| ts := ts msg;
     key := key msg;
     ttl := ttl msg;
     post := post msg;
     contentType := contentType msg;
     body := body msg;
     actions := map cloneDeep_action (actions msg);
     recipient := option_map (fun r => {| address := address r |}) (recipient msg) |}.

(** [{ ..._.cloneDeep(msg), recipient: { address } }]. *)
Definition with_recipient (msg : Notification) (addr : string) : Notification :=
  let copy := cloneDeep msg in
  {| ts := ts copy;
     key := key copy;
     ttl := ttl copy;
     post := post copy;
     contentType := contentType copy;
     body := body copy;
     actions := actions copy;
     recipient := Some {| address := addr |} |}.

Section Relay.

(** [JSON.stringify] and the client's [isSlackMessage] predicate. *)
Variable JSON_stringify : SlackMessage -> string.
Variable isSlackMessage : Message -> bool.

(** Line 111: the guard on the process role. *)
Definition proceeds (listener : DashboardAutomationEventListener) (rt : Runtime) : bool :=
  (clustered listener && isWorker rt) || negb (clustered listener).

(** Lines 112-116. *)
Definition ignore_of (options : option MessageOptions) : bool :=
  match options with
  | None => false
  | Some o =>
    match Options.id o with
    | Some i => Js.truthy_string i && Js.includes i "lifecycle"
    | None => false
    end
    || match Options.dashboard o with
       | Some false => true
       | _ => false
       end
  end.

(** Lines 118-127: a string is wrapped, an object is kept when the
    predicate accepts it, anything else leaves [slackMessage] unset. *)
Definition slackMessage_of (message : Message) : option SlackMessage :=
  match message with
  | MString s => Some {| text := Some s; attachments := None |}
  | MObject o => if isSlackMessage message then Some o else None
  end.

(** Lines 135-143: one entry per own key of [cra.command.parameters]. *)
Definition parameters_of (cra : CommandReferencingAction) : list ActionParameter :=
  match cmd_parameters (command cra) with
  | None => []
  | Some ps =>
    map (fun kv : string * Js.Value =>
           {| name := fst kv;
              value := if Js.truthy_value (snd kv)
                       then Some (Js.toString (snd kv))
                       else None |}) ps
  end.

(** Lines 145-152. *)
Definition action_of (ctx : HandlerContext) (cra : CommandReferencingAction)
  : NotifactionAction :=
  {| a_text := cra_text cra;
     a_type := Button;
     a_registration := context_name ctx;
     a_command := cmd_name (command cra);
     a_parameters := parameters_of cra |}.

(** [a => a.actions] as [_.flatten] sees it: an array, or the single value
    [undefined]. *)
Definition actions_entry (a : Attachment)
  : Lodash.Flattenable (option CommandReferencingAction) :=
  match att_actions a with
  | Some l => Lodash.IsArray l
  | None => Lodash.NotArray None
  end.

(** Lines 131-153, on a message whose actions all have a command;
    [Raw.actions_of] is the same lines on any message. *)
Definition actions_of (ctx : HandlerContext) (slackMessage : SlackMessage)
  : list NotifactionAction :=
  let atts := match attachments slackMessage with Some l => l | None => [] end in
  map (action_of ctx) (filter_truthy (Lodash.flatten (map actions_entry atts))).

(** Line 156: [options && options.id ? options.id : guid()]. *)
Definition key_of (options : option MessageOptions) (rt : Runtime) : string :=
  match options with
  | Some o =>
    match Options.id o with
    | Some i => if Js.truthy_string i then i else guid rt
    | None => guid rt
    end
  | None => guid rt
  end.

(** Line 157: [options && options.ts ? options.ts : Date.now()]. *)
Definition ts_of (options : option MessageOptions) (rt : Runtime) : Z :=
  match options with
  | Some o =>
    match Options.ts o with
    | Some t => if Js.truthy_number t then t else Date_now rt
    | None => Date_now rt
    end
  | None => Date_now rt
  end.

(** Lines 155-163. *)
Definition msg_of (options : option MessageOptions) (rt : Runtime)
           (slackMessage : SlackMessage) (acts : list NotifactionAction) : Notification :=
  {| key := key_of options rt;
     ts := ts_of options rt;
     ttl := match options with Some o => Options.ttl o | None => None end;
     post := match options with Some o => Options.post o | None => None end;
     body := JSON_stringify slackMessage;
     contentType := SlackJson;
     actions := acts;
     recipient := None |}.

(** Line 165: [!destinations || destinations.length === 0]; a single
    destination object has no [length]. *)
Definition no_destinations (destinations : Destinations) : bool :=
  match destinations with
  | NoDestinations => true
  | OneDestination _ => false
  | DestinationArray ds => Nat.eqb (List.length ds) 0
  end.

(** Lines 167-168: the identity of a web origin, when all four tests pass. *)
Definition web_identity (ctx : HandlerContext) : option Identity :=
  match source ctx with
  | Some s =>
    if String.eqb (user_agent s) "web"
    then match web s with
         | Some w => identity w
         | None => None
         end
    else None
  | None => None
  end.

(** Line 175. *)
Definition slack_origin (ctx : HandlerContext) : option SlackSource :=
  match source ctx with
  | Some s => if String.eqb (user_agent s) "slack" then Some (slack s) else None
  | None => None
  end.

(** Lines 166-203: the message answers the request that is being handled. *)
Definition response (ctx : HandlerContext) (msg : Notification) : Promise Event unit :=
  match web_identity ctx with
  | Some idn =>
    send (with_recipient msg (workspaceId ctx ++ "-" ++ Js.template (sub idn)),
          NotificationRootType)
  | None =>
    match slack_origin ctx with
    | Some sl =>
      chatId <- query ctx {| teamId := slack_team_id sl; screenName := slack_user_name sl |} ;;
      let login := get_login chatId in
      if Js.truthy login
      then send (with_recipient msg (workspaceId ctx ++ "-" ++ Js.template login),
                 NotificationRootType)
      else resolve tt
    | None =>
      send (with_recipient msg (workspaceId ctx), NotificationRootType)
    end
  end.

(** Line 211. *)
Definition dest_of (destinations : Destinations) : list Destination :=
  match destinations with
  | NoDestinations => []
  | OneDestination d => [d]
  | DestinationArray ds => ds
  end.

(** Lines 213-218: every screen name becomes a new object pushed on
    [users]; the objects pushed so far are numbered from zero. *)
Definition users_push (acc : list (Js.Obj ChatUser)) (sd : Destination)
  : list (Js.Obj ChatUser) :=
  match users sd with
  | Some us =>
    acc ++ Js.alloc_map (fun u => {| teamId := team sd; screenName := u |}) (List.length acc) us
  | None => acc
  end.

Definition users_of (dest : list Destination) : list (Js.Obj ChatUser) :=
  fold_left users_push dest [].

(** Lines 230-255: the lookup for one element of [_.uniq(users)] and what
    follows it. *)
Definition per_user (ctx : HandlerContext) (msg : Notification) (user : Js.Obj ChatUser)
  : Promise Event unit :=
  chatId <- query ctx {| teamId := teamId (Js.fields user);
                         screenName := screenName (Js.fields user) |} ;;
  let login := get_or (get_login chatId) (Js.Str (screenName (Js.fields user))) in
  if Js.truthy login
  then send (with_recipient msg (workspaceId ctx ++ "-" ++ Js.template login),
             NotificationRootType)
  else resolve tt.

(** Lines 205-259: the message is addressed. *)
Definition addressed (ctx : HandlerContext) (msg : Notification) (destinations : Destinations)
  : Promise Event unit :=
  let us := users_of (dest_of destinations) in
  let messages :=
    [send (with_recipient msg (workspaceId ctx), NotificationRootType)]
    ++ (if Nat.ltb 0 (List.length us)
        then map (per_user ctx msg) (Lodash.uniq Js.same_object us)
        else []) in
  Promise_all messages.

(** Lines 106-264. *)
Definition messageSent (listener : DashboardAutomationEventListener) (rt : Runtime)
           (message : Message) (destinations : Destinations)
           (options : option MessageOptions) (ctx : HandlerContext) : Promise Event unit :=
  if proceeds listener rt then
    let ignore := ignore_of options in
    match slackMessage_of message with
    | Some slackMessage =>
      if negb ignore then
        let acts := actions_of ctx slackMessage in
        let msg := msg_of options rt slackMessage acts in
        if no_destinations destinations
        then response ctx msg
        else addressed ctx msg destinations
      else resolve tt
    | None => resolve tt
    end
  else resolve tt.

End Relay.

(** ** The earlier revision of the listener

    The repository also holds the revision of [messageSent] from before
    recipients were addressed by [recipient.address].  It differs from the
    listener above in the guard on the message, in [body] and [contentType],
    in the records it sends, and in when the workspace-wide record is sent. *)

Module Legacy.

(** What the message client is given: the record, the [login] spliced into
    a [UserNotification], and the root type. *)
Record Event : Type := {
  payload : Notification;
  login_field : option Js.Leaf;
  rootType : RootType
}.

Section Relay.

Variable JSON_stringify : SlackMessage -> string.
Variable isSlackMessage : Message -> bool.

(** [message.attachments || []]; a string has no such property. *)
Definition attachments_of (message : Message) : list Attachment :=
  match message with
  | MObject {| attachments := Some l |} => l
  | _ => []
  end.

Definition actions_of (ctx : HandlerContext) (message : Message) : list NotifactionAction :=
  map (action_of ctx)
      (filter_truthy (Lodash.flatten (map actions_entry (attachments_of message)))).

(** [body] and [contentType] follow [typeof message === "string"]. *)
Definition msg_of (options : option MessageOptions) (rt : Runtime)
           (message : Message) (acts : list NotifactionAction) : Notification :=
  {| key := key_of options rt;
     ts := ts_of options rt;
     ttl := match options with Some o => Options.ttl o | None => None end;
     post := match options with Some o => Options.post o | None => None end;
     body := match message with
             | MString s => s
             | MObject o => JSON_stringify o
             end;
     contentType := match message with
                    | MString _ => TextPlain
                    | MObject _ => SlackJson
                    end;
     actions := acts;
     recipient := None |}.

Definition user_notification (msg : Notification) (l : Js.Leaf) : Event :=
  {| payload := cloneDeep msg;
     login_field := Some l;
     rootType := UserNotificationRootType |}.

Definition workspace_notification (msg : Notification) : Event :=
  {| payload := msg; login_field := None; rootType := NotificationRootType |}.

(** The response branch reads [ctx.source.user_agent] and
    [ctx.source.web.login] unguarded; [None] is the [TypeError] thrown
    before anything is sent. *)
Definition response (ctx : HandlerContext) (msg : Notification)
  : option (Promise Event unit) :=
  match source ctx with
  | None => None
  | Some s =>
    if String.eqb (user_agent s) "web" then
      match web s with
      | Some w => Some (send (user_notification msg (web_login w)))
      | None => None
      end
    else if String.eqb (user_agent s) "slack" then
      Some (chatId <- query ctx {| teamId := slack_team_id (slack s);
                                   screenName := slack_user_name (slack s) |} ;;
            let l := get_login chatId in
            if Js.truthy l then send (user_notification msg l) else resolve tt)
    else Some (send (workspace_notification msg))
  end.

Definition has_channel (sd : Destination) : bool :=
  match channels sd with
  | Some (_ :: _) => true
  | _ => false
  end.

Definition per_user (ctx : HandlerContext) (msg : Notification) (user : Js.Obj ChatUser)
  : Promise Event unit :=
  chatId <- query ctx {| teamId := teamId (Js.fields user);
                         screenName := screenName (Js.fields user) |} ;;
  let l := get_login chatId in
  if Js.truthy l then send (user_notification msg l) else resolve tt.

(** The workspace-wide record is sent only when [channel] was set. *)
Definition addressed (ctx : HandlerContext) (msg : Notification) (destinations : Destinations)
  : Promise Event unit :=
  let dest := dest_of destinations in
  let channel := existsb has_channel dest in
  let us := users_of dest in
  let messages :=
    (if channel then [send (workspace_notification msg)] else [])
    ++ (if Nat.ltb 0 (List.length us)
        then map (per_user ctx msg) (Lodash.uniq Js.same_object us)
        else []) in
  Promise_all messages.

(** The method of the earlier revision, on messages whose actions all have
    a command and for a slack source that has its slack block; [None] is the
    [TypeError] of the response branch. *)
Definition messageSent (listener : DashboardAutomationEventListener) (rt : Runtime)
           (message : Message) (destinations : Destinations)
           (options : option MessageOptions) (ctx : HandlerContext)
  : option (Promise Event unit) :=
  if proceeds listener rt then
    let ignore := ignore_of options in
    if isSlackMessage message && negb ignore then
      let acts := actions_of ctx message in
      let msg := msg_of options rt message acts in
      if no_destinations destinations
      then response ctx msg
      else Some (addressed ctx msg destinations)
    else Some (resolve tt)
  else Some (resolve tt).

End Relay.

End Legacy.

(** ** Actions that reference no command

    The listener casts every attachment action to [CommandReferencingAction]
    and then reads [cra.command.parameters] (line 136).  An action that was
    made without a command has no [command], and the read throws a
    [TypeError] inside [messageSent], before anything is sent.  [Raw] is the
    listener on messages as they come, with that throw.  The definitions
    above are the listener on the messages whose actions all have a command;
    [raw_message] embeds them. *)

Module Raw.

(** An attachment action as a message holds it. *)
Record Action : Type := {
  act_text : string;
  act_command : option CommandReference
}.

Record Attachment : Type := {
  raw_fallback : string;
  raw_actions : option (list (option Action))
}.

Record SlackMessage : Type := {
  raw_text : option string;
  raw_attachments : option (list Attachment)
}.

Inductive Message : Type :=
| RString (s : string)
| RObject (o : SlackMessage).

(** [array.map(f)] for an [f] that may throw: the first throw ends the walk
    ([None]). *)
Fixpoint map_or_throw {A B} (f : A -> option B) (array : list A) : option (list B) :=
  match array with
  | [] => Some []
  | a :: rest =>
    match f a with
    | None => None
    | Some b =>
      match map_or_throw f rest with
      | None => None
      | Some bs => Some (b :: bs)
      end
    end
  end.

(** Line 133: the action seen as a [CommandReferencingAction], where it has
    the [command] that line 136 reads. *)
Definition command_referencing (a : Action) : option CommandReferencingAction :=
  match act_command a with
  | Some c => Some {| cra_text := act_text a; command := c |}
  | None => None
  end.

(** Lines 133-152; [None] is the [TypeError] of line 136. *)
Definition action_of (ctx : HandlerContext) (a : Action) : option NotifactionAction :=
  match command_referencing a with
  | Some cra => Some (action_of ctx cra)
  | None => None
  end.

Definition actions_entry (a : Attachment) : Lodash.Flattenable (option Action) :=
  match raw_actions a with
  | Some l => Lodash.IsArray l
  | None => Lodash.NotArray None
  end.

(** Lines 131-153. *)
Definition actions_of (ctx : HandlerContext) (slackMessage : SlackMessage)
  : option (list NotifactionAction) :=
  let atts := match raw_attachments slackMessage with Some l => l | None => [] end in
  map_or_throw (action_of ctx) (filter_truthy (Lodash.flatten (map actions_entry atts))).

Section Relay.

Variable JSON_stringify : SlackMessage -> string.
Variable isSlackMessage : Message -> bool.

(** Lines 118-127. *)
Definition slackMessage_of (message : Message) : option SlackMessage :=
  match message with
  | RString s => Some {| raw_text := Some s; raw_attachments := None |}
  | RObject o => if isSlackMessage message then Some o else None
  end.

(** Lines 155-163. *)
Definition msg_of (options : option MessageOptions) (rt : Runtime)
           (slackMessage : SlackMessage) (acts : list NotifactionAction) : Notification :=
  {| key := key_of options rt;
     ts := ts_of options rt;
     ttl := match options with Some o => Options.ttl o | None => None end;
     post := match options with Some o => Options.post o | None => None end;
     body := JSON_stringify slackMessage;
     contentType := SlackJson;
     actions := acts;
     recipient := None |}.

(** Lines 106-264.  [None]: the call throws, and nothing has been sent;
    otherwise the promise the call returns. *)
Definition messageSent (listener : DashboardAutomationEventListener) (rt : Runtime)
           (message : Message) (destinations : Destinations)
           (options : option MessageOptions) (ctx : HandlerContext)
  : option (Promise Event unit) :=
  if proceeds listener rt then
    let ignore := ignore_of options in
    match slackMessage_of message with
    | Some slackMessage =>
      if negb ignore then
        match actions_of ctx slackMessage with
        | Some acts =>
          let msg := msg_of options rt slackMessage acts in
          Some (if no_destinations destinations
                then response ctx msg
                else addressed ctx msg destinations)
        | None => None
        end
      else Some (resolve tt)
    | None => Some (resolve tt)
    end
  else Some (resolve tt).

End Relay.


(** The truthy actions of the attachments, in the order of the flattened
    array. *)
Definition truthy_actions (atts : list Attachment) : list Action :=
  filter_truthy (Lodash.flatten (map actions_entry atts)).

End Raw.





(** ** Registration

    [configureDashboardNotifications] is the one function the package
    exports beside the listener class.  The client's configuration is kept
    as the two parts the function touches. *)

(** An entry of [configuration.listeners]: a listener of this package or one
    of another kind, known here by a name. *)
Inductive AutomationEventListener : Type :=
| Dashboard (l : DashboardAutomationEventListener)
| OtherListener (label : string).

Record ClusterOptions : Type := { enabled : bool }.

Record Configuration : Type := {
  listeners : list AutomationEventListener;
  cluster : ClusterOptions
}.

(** Lines 273-276: push a new listener, resolve with the configuration. *)
Definition configureDashboardNotifications (configuration : Configuration) : Configuration :=
  {| listeners :=
       listeners configuration
       ++ [Dashboard {| clustered := enabled (cluster configuration) |}];
     cluster := cluster configuration |}.

(** ** Vocabulary of the properties *)

(** The address an event carries, if it carries one. *)
Definition address_of (e : Event) : option string :=
  option_map address (recipient (fst e)).

(** An event is workspace-wide when it is addressed to the bare workspace id. *)
Definition workspace_wide (ctx : HandlerContext) (e : Event) : bool :=
  match address_of e with
  | Some a => String.eqb a (workspaceId ctx)
  | None => false
  end.

(** Two events agree on everything but, possibly, the address of the
    recipient. *)
Definition differ_in_address_only (e1 e2 : Event) : Prop :=
  key (fst e1) = key (fst e2)
  /\ ts (fst e1) = ts (fst e2)
  /\ ttl (fst e1) = ttl (fst e2)
  /\ post (fst e1) = post (fst e2)
  /\ body (fst e1) = body (fst e2)
  /\ actions (fst e1) = actions (fst e2)
  /\ contentType (fst e1) = contentType (fst e2)
  /\ snd e1 = snd e2
  /\ (address_of e1 = address_of e2 -> e1 = e2).

(** The pairs of team and screen name that the destinations mention, one for
    every mention. *)
Definition mentions (sd : Destination) : list ChatUser :=
  map (fun u => {| teamId := team sd; screenName := u |})
      (match users sd with Some us => us | None => [] end).

Definition mentioned_users (dest : list Destination) : list ChatUser :=
  flat_map mentions dest.

(** What the callback of [per_user] publishes once the lookup for [user]
    has answered. *)
Definition per_user_events (ctx : HandlerContext) (msg : Notification) (user : ChatUser)
  : list Event :=
  let login := get_or (get_login (graphClient ctx user)) (Js.Str (screenName user)) in
  if Js.truthy login
  then [(with_recipient msg (workspaceId ctx ++ "-" ++ Js.template login),
         NotificationRootType)]
  else [].

(** The content type that tells a bare string from a structured message. *)
Definition content_type_by_source (message : Message) : ContentType :=
  match message with
  | MString _ => TextPlain
  | MObject _ => SlackJson
  end.

(** Action flattening as the specification words it: the action lists of the
    attachments one after the other, then the falsy entries dropped. *)
Definition action_list (a : Attachment) : list (option CommandReferencingAction) :=
  match att_actions a with
  | Some l => l
  | None => []
  end.

Definition concatenated_actions (atts : list Attachment) : list CommandReferencingAction :=
  filter_truthy (concat (map action_list atts)).

Definition raw_action_list (a : Raw.Attachment) : list (option Raw.Action) :=
  match Raw.raw_actions a with
  | Some l => l
  | None => []
  end.

Definition raw_concatenated_actions (atts : list Raw.Attachment) : list Raw.Action :=
  filter_truthy (concat (map raw_action_list atts)).

(** What a notification action has to hold for the action it was made from. *)
Definition made_from (ctx : HandlerContext) (a : Raw.Action) (x : NotifactionAction) : Prop :=
  a_text x = Raw.act_text a
  /\ Some (a_command x) = option_map cmd_name (Raw.act_command a)
  /\ a_type x = Button
  /\ a_registration x = context_name ctx.

(** [slackMessage.attachments || []]. *)
Definition raw_attachments_or_none (m : Raw.SlackMessage) : list Raw.Attachment :=
  match Raw.raw_attachments m with
  | Some l => l
  | None => []
  end.

(** The same context with another origin. *)
Definition with_source (ctx : HandlerContext) (s : option Source) : HandlerContext :=
  {| workspaceId := workspaceId ctx;
     source := s;
     context_name := context_name ctx;
     graphClient := graphClient ctx |}.

(** How often a pair of team and screen name was looked up. *)
Definition same_user (u v : ChatUser) : bool :=
  String.eqb (teamId u) (teamId v) && String.eqb (screenName u) (screenName v).

Definition lookups_for (u : ChatUser) (w : World Event) : nat :=
  List.length (filter (same_user u) (lookups w)).

(** The listeners of this package among the listeners of a configuration. *)
Fixpoint dashboard_listeners (ls : list AutomationEventListener)
  : list DashboardAutomationEventListener :=
  match ls with
  | [] => []
  | Dashboard l :: rest => l :: dashboard_listeners rest
  | OtherListener _ :: rest => dashboard_listeners rest
  end.

(** What the callback of the earlier revision's [per_user] publishes. *)
Definition legacy_per_user_events (msg : Notification) (ctx : HandlerContext)
           (user : ChatUser) : list Legacy.Event :=
  let l := get_login (graphClient ctx user) in
  if Js.truthy l then [Legacy.user_notification msg l] else [].

(** The workspace-wide records among the records of the earlier revision. *)
Definition legacy_workspace_wide (e : Legacy.Event) : bool :=
  match Legacy.rootType e with
  | NotificationRootType => true
  | UserNotificationRootType => false
  end.

(** ** Sample collaborators and inputs *)

Module Sample.

(** A serializer and a shape predicate to run the listener with. *)
Definition stringify (m : SlackMessage) : string :=
  match text m with
  | Some t => t
  | None => ""
  end.

Definition isSlackMessage (message : Message) : bool :=
  match message with
  | MString _ => false
  | MObject o =>
    match text o, attachments o with
    | Some t, _ => Js.truthy_string t
    | None, Some _ => true
    | None, None => false
    end
  end.

Definition single : DashboardAutomationEventListener := {| clustered := false |}.
Definition clustered_listener : DashboardAutomationEventListener := {| clustered := true |}.
Definition master : Runtime := {| isWorker := false; guid := "g-1"; Date_now := 1000 |}.

(** A graph answer that resolves to the login given. *)
Definition answer (l : string) : option ChatId :=
  Some {| ChatTeam :=
            Some [ {| members :=
                        Some [ {| person :=
                          Some {| gitHubId := Some {| login := Js.Str l |} |} |} ] |} ] |}.

(** A graph answer for a team without a matching member. *)
Definition no_member : option ChatId :=
  Some {| ChatTeam := Some [ {| members := Some [] |} ] |}.

Definition slack_source : Source :=
  {| user_agent := "slack";
     web := None;
     slack := {| slack_team_id := "T1"; slack_user_name := "al" |} |}.

Definition web_source_without_identity : Source :=
  {| user_agent := "web";
     web := Some {| identity := None; web_login := Js.Undefined |};
     slack := {| slack_team_id := ""; slack_user_name := "" |} |}.

(** A context whose graph client knows [al] as [alice] and nobody else. *)
Definition ctx (s : option Source) : HandlerContext :=
  {| workspaceId := "W1";
     source := s;
     context_name := "reg";
     graphClient := fun v => if String.eqb (screenName v) "al"
                             then answer "alice" else no_member |}.

Definition hello : Message := MString "hello".

(** What the listener wraps [hello] into, and the record it builds for it
    when there are no options. *)
Definition wrapped_hello : SlackMessage := {| text := Some "hello"; attachments := None |}.

Definition hello_msg : Notification :=
  msg_of stringify None master wrapped_hello [].

Definition to_bob : Destination :=
  {| team := "T1"; users := Some ["bob"]; channels := None |}.

Definition to_bob_twice : Destination :=
  {| team := "T1"; users := Some ["bob"; "bob"]; channels := None |}.

Definition bob : ChatUser := {| teamId := "T1"; screenName := "bob" |}.

Definition to_nameless : Destination :=
  {| team := "T1"; users := Some [""]; channels := None |}.

Definition to_al_and_bob : Destination :=
  {| team := "T1"; users := Some ["al"; "bob"]; channels := None |}.

Definition nameless : ChatUser := {| teamId := "T1"; screenName := "" |}.

(** The log the listener leaves for [hello], sent without options from a
    client that is not clustered. *)
Definition relay (destinations : Destinations) (c : HandlerContext) : World Event :=
  run (messageSent stringify isSlackMessage single master hello destinations None c).

Definition lifecycle_options : MessageOptions :=
  {| Options.id := Some "push/lifecycle/1"; Options.ts := None; Options.ttl := None;
     Options.post := None; Options.dashboard := None |}.

Definition command_a : CommandReferencingAction :=
  {| cra_text := "a";
     command := {| cmd_name := "A"; cmd_parameters := Some [("k", Js.VString "v")] |} |}.

Definition web_source_with_identity : Source :=
  {| user_agent := "web";
     web := Some {| identity := Some {| sub := Js.Str "u-7" |}; web_login := Js.Str "wl" |};
     slack := {| slack_team_id := ""; slack_user_name := "" |} |}.

Definition to_channel : Destination :=
  {| team := "T1"; users := None; channels := Some ["general"] |}.

(** A graph answer whose path ends in the leaf given. *)
Definition answer_leaf (v : Js.Leaf) : option ChatId :=
  Some {| ChatTeam :=
            Some [ {| members :=
                        Some [ {| person :=
                                    Some {| gitHubId := Some {| login := v |} |} |} ] |} ] |}.

(** A context whose graph client answers every lookup with a [null] login. *)
Definition ctx_null : HandlerContext :=
  {| workspaceId := "W1";
     source := None;
     context_name := "reg";
     graphClient := fun _ => answer_leaf Js.Null |}.

Definition full_options : MessageOptions :=
  {| Options.id := Some "m-1"; Options.ts := Some 5%Z; Options.ttl := Some 60%Z;
     Options.post := Some "always"; Options.dashboard := None |}.

Definition configuration : Configuration :=
  {| listeners := [OtherListener "metrics"]; cluster := {| enabled := true |} |}.

Definition worker : Runtime := {| isWorker := true; guid := "g-2"; Date_now := 2000 |}.

(** A structured message with one attachment and one action. *)
Definition structured : Message :=
  MObject {| text := Some "build done";
             attachments :=
               Some [ {| fallback := "build";
                         att_actions := Some [Some command_a] |} ] |}.

Definition al : ChatUser := {| teamId := "T1"; screenName := "al" |}.

Definition to_bob_in_general : Destination :=
  {| team := "T1"; users := Some ["bob"]; channels := Some ["general"] |}.

(** An action that was made without a command, and a message that has it
    behind an action with one. *)
Definition plain_action : Raw.Action :=
  {| Raw.act_text := "open"; Raw.act_command := None |}.

Definition raw_a : Raw.Action :=
  {| Raw.act_text := "a";
     Raw.act_command := Some {| cmd_name := "A"; cmd_parameters := None |} |}.

Definition raw_b : Raw.Action :=
  {| Raw.act_text := "b";
     Raw.act_command := Some {| cmd_name := "B"; cmd_parameters := None |} |}.

Definition raw_c : Raw.Action :=
  {| Raw.act_text := "c";
     Raw.act_command := Some {| cmd_name := "C"; cmd_parameters := None |} |}.

Definition with_plain_action : Raw.SlackMessage :=
  {| Raw.raw_text := Some "look";
     Raw.raw_attachments :=
       Some [ {| Raw.raw_fallback := "look";
                 Raw.raw_actions := Some [Some raw_a; Some plain_action] |} ] |}.

Definition raw_stringify (m : Raw.SlackMessage) : string :=
  match Raw.raw_text m with
  | Some t => t
  | None => ""
  end.

Definition raw_isSlackMessage (message : Raw.Message) : bool :=
  match message with
  | Raw.RString _ => false
  | Raw.RObject o =>
    match Raw.raw_text o, Raw.raw_attachments o with
    | Some t, _ => Js.truthy_string t
    | None, Some _ => true
    | None, None => false
    end
  end.

End Sample.

(** * Properties of the listener *)

(** ** Strings *)

Lemma length_append (a b : string) :
  String.length (a ++ b)%string = String.length a + String.length b.
Proof. induction a as [|c a IH]; simpl; [reflexivity | now rewrite IH]. Qed.

Lemma append_nonempty_neq (a b : string) : b <> "" -> (a ++ b)%string <> a.
Proof.
  intros Hb H. apply (f_equal String.length) in H.
  rewrite length_append in H.
  destruct b; [congruence | simpl in H; lia].
Qed.

Lemma prefix_spec (p s : string) :
  String.prefix p s = true <-> exists post, s = (p ++ post)%string.
Proof.
  revert s; induction p as [|a p IH]; intros s.
  - destruct s; simpl; split; eauto.
  - destruct s as [|b s]; simpl.
    + split; [discriminate | intros [post H]; discriminate].
    + destruct (ascii_dec a b) as [->|Hab].
      * rewrite IH. split; intros [post H]; exists post.
        -- now subst.
        -- now inversion H.
      * split; [discriminate | intros [post H]; inversion H; congruence].
Qed.

Lemma includes_nil (sub : string) :
  Js.includes "" sub = String.prefix sub "" || false.
Proof. reflexivity. Qed.

Lemma includes_cons (c : ascii) (s sub : string) :
  Js.includes (String c s) sub = String.prefix sub (String c s) || Js.includes s sub.
Proof. reflexivity. Qed.

(** [includes] holds exactly of the strings that have [sub] somewhere inside. *)
Lemma includes_spec (s sub : string) :
  Js.includes s sub = true <-> exists pre post, s = (pre ++ sub ++ post)%string.
Proof.
  induction s as [|c s IH].
  - rewrite includes_nil, orb_true_iff, prefix_spec. split.
    + intros [[post H]|H]; [exists "", post; exact H | discriminate].
    + intros [pre [post H]]. left. destruct pre; [exists post; exact H | discriminate].
  - rewrite includes_cons, orb_true_iff, prefix_spec, IH. split.
    + intros [[post H]|[pre [post H]]].
      * exists "", post. exact H.
      * exists (String c pre), post. simpl. now rewrite H.
    + intros [pre [post H]]. destruct pre as [|d pre]; simpl in H.
      * left. exists post. exact H.
      * right. exists pre, post. now inversion H.
Qed.

(** ** Copies *)

Lemma cloneDeep_parameter_id (p : ActionParameter) : cloneDeep_parameter p = p.
Proof. now destruct p. Qed.

Lemma cloneDeep_action_id (a : NotifactionAction) : cloneDeep_action a = a.
Proof.
  destruct a as [t ty r c ps]. unfold cloneDeep_action; simpl. f_equal.
  induction ps as [|p ps IH]; simpl; [reflexivity|].
  now rewrite cloneDeep_parameter_id, IH.
Qed.

(** A deep copy holds the same values as the record it was made from. *)
Lemma cloneDeep_id (msg : Notification) : cloneDeep msg = msg.
Proof.
  destruct msg as [t k tl p ct b acts r]. unfold cloneDeep; simpl. f_equal.
  - induction acts as [|a acts IH]; simpl; [reflexivity|].
    now rewrite cloneDeep_action_id, IH.
  - destruct r as [[a]|]; reflexivity.
Qed.

Lemma with_recipient_fields (msg : Notification) (addr : string) :
  with_recipient msg addr =
  {| ts := ts msg; key := key msg; ttl := ttl msg; post := post msg;
     contentType := contentType msg; body := body msg; actions := actions msg;
     recipient := Some {| address := addr |} |}.
Proof. unfold with_recipient. now rewrite cloneDeep_id. Qed.

(** ** Object identity and [_.uniq] *)

Lemma alloc_map_addr {A B} (f : A -> B) (next : nat) (vals : list A) :
  map Js.addr (Js.alloc_map f next vals) = seq next (List.length vals).
Proof.
  revert next; induction vals as [|v vals IH]; intros next; simpl;
    [reflexivity | now rewrite IH].
Qed.

Lemma alloc_map_fields {A B} (f : A -> B) (next : nat) (vals : list A) :
  map Js.fields (Js.alloc_map f next vals) = map f vals.
Proof.
  revert next; induction vals as [|v vals IH]; intros next; simpl;
    [reflexivity | now rewrite IH].
Qed.

Lemma users_push_addr (acc : list (Js.Obj ChatUser)) (sd : Destination) :
  map Js.addr acc = seq 0 (List.length acc) ->
  map Js.addr (users_push acc sd) = seq 0 (List.length (users_push acc sd)).
Proof.
  intros Hacc. unfold users_push. destruct (users sd) as [us|]; [|exact Hacc].
  rewrite map_app, alloc_map_addr, Hacc, length_app.
  rewrite <- (length_map Js.addr (Js.alloc_map _ _ us)), alloc_map_addr, length_seq.
  now rewrite seq_app.
Qed.

Lemma fold_users_push_addr (dest : list Destination) (acc : list (Js.Obj ChatUser)) :
  map Js.addr acc = seq 0 (List.length acc) ->
  map Js.addr (fold_left users_push dest acc)
  = seq 0 (List.length (fold_left users_push dest acc)).
Proof.
  revert acc; induction dest as [|d dest IH]; intros acc Hacc; simpl;
    [exact Hacc | apply IH, users_push_addr, Hacc].
Qed.

(** The objects on [users] are pairwise different objects. *)
Lemma users_of_distinct (dest : list Destination) :
  NoDup (map Js.addr (users_of dest)).
Proof.
  unfold users_of. rewrite fold_users_push_addr by reflexivity. apply seq_NoDup.
Qed.

Lemma existsb_same_object_false {A} (x : Js.Obj A) (l : list (Js.Obj A)) :
  ~ In (Js.addr x) (map Js.addr l) -> existsb (Js.same_object x) l = false.
Proof.
  induction l as [|y l IH]; simpl; intros Hn; [reflexivity|].
  unfold Js.same_object at 1.
  destruct (Nat.eqb_spec (Js.addr x) (Js.addr y)) as [e|_]; [exfalso; auto|].
  apply IH. auto.
Qed.

Lemma uniq_fold_distinct {A} (l acc : list (Js.Obj A)) :
  NoDup (map Js.addr (acc ++ l)) ->
  fold_left (Lodash.uniq_step Js.same_object) l acc = acc ++ l.
Proof.
  revert acc; induction l as [|x l IH]; intros acc Hnd; simpl.
  - now rewrite app_nil_r.
  - unfold Lodash.uniq_step at 2.
    rewrite existsb_same_object_false.
    + rewrite IH; rewrite <- app_assoc; [reflexivity | exact Hnd].
    + rewrite map_app in Hnd. simpl in Hnd.
      apply NoDup_remove_2 in Hnd. intro Hin. apply Hnd, in_or_app. now left.
Qed.

(** [_.uniq] compares objects by identity, so it removes nothing from an
    array of objects that were each created on their own. *)
Lemma uniq_distinct_objects {A} (l : list (Js.Obj A)) :
  NoDup (map Js.addr l) -> Lodash.uniq Js.same_object l = l.
Proof. intros H. unfold Lodash.uniq. now rewrite uniq_fold_distinct. Qed.

Lemma uniq_users_of (dest : list Destination) :
  Lodash.uniq Js.same_object (users_of dest) = users_of dest.
Proof. apply uniq_distinct_objects, users_of_distinct. Qed.

Lemma users_push_fields (acc : list (Js.Obj ChatUser)) (sd : Destination) :
  map Js.fields (users_push acc sd) = map Js.fields acc ++ mentions sd.
Proof.
  unfold users_push, mentions. destruct (users sd) as [us|]; simpl.
  - now rewrite map_app, alloc_map_fields.
  - now rewrite app_nil_r.
Qed.

Lemma fold_users_push_fields (dest : list Destination) (acc : list (Js.Obj ChatUser)) :
  map Js.fields (fold_left users_push dest acc) = map Js.fields acc ++ mentioned_users dest.
Proof.
  revert acc; induction dest as [|d dest IH]; intros acc; simpl.
  - now rewrite app_nil_r.
  - now rewrite IH, users_push_fields, <- app_assoc.
Qed.

(** [users] holds one object for every mention of a user, in order. *)
Lemma users_of_fields (dest : list Destination) :
  map Js.fields (users_of dest) = mentioned_users dest.
Proof. unfold users_of. now rewrite fold_users_push_fields. Qed.

(** ** Runs of the branches *)

Lemma chat_user_eta (u : ChatUser) :
  {| teamId := teamId u; screenName := screenName u |} = u.
Proof. now destruct u. Qed.

Lemma per_user_run (ctx : HandlerContext) (msg : Notification) (user : Js.Obj ChatUser)
      (w : World Event) :
  per_user ctx msg user w
  = (tt, mkWorld (lookups w ++ [Js.fields user])
                 (published w ++ per_user_events ctx msg (Js.fields user))).
Proof.
  unfold per_user, per_user_events, bind, query. rewrite chat_user_eta. cbv zeta.
  destruct (Js.truthy _); unfold send, resolve; simpl; rewrite ?app_nil_r; reflexivity.
Qed.

Lemma Promise_all_per_user (ctx : HandlerContext) (msg : Notification)
      (us : list (Js.Obj ChatUser)) (w : World Event) :
  Promise_all (map (per_user ctx msg) us) w
  = (tt, mkWorld (lookups w ++ map Js.fields us)
                 (published w ++ flat_map (per_user_events ctx msg) (map Js.fields us))).
Proof.
  revert w; induction us as [|u us IH]; intros w; simpl.
  - unfold resolve. rewrite !app_nil_r. now destruct w.
  - unfold bind at 1. rewrite per_user_run, IH. simpl.
    now rewrite <- !app_assoc.
Qed.

(** The addressed branch: the workspace-wide event first, then one lookup
    for every mention of a user and whatever its callback publishes. *)
Lemma addressed_run (ctx : HandlerContext) (msg : Notification) (destinations : Destinations)
      (w : World Event) :
  addressed ctx msg destinations w
  = (tt, mkWorld (lookups w ++ mentioned_users (dest_of destinations))
                 (published w
                  ++ (with_recipient msg (workspaceId ctx), NotificationRootType)
                  :: flat_map (per_user_events ctx msg)
                              (mentioned_users (dest_of destinations)))).
Proof.
  rewrite <- users_of_fields. unfold addressed. cbv zeta. rewrite uniq_users_of.
  destruct (users_of (dest_of destinations)) as [|u us] eqn:E.
  - simpl. unfold bind, send, resolve. simpl. now rewrite app_nil_r.
  - change (Nat.ltb 0 (List.length (u :: us))) with true. cbv iota.
    change ([send (with_recipient msg (workspaceId ctx), NotificationRootType)]
            ++ map (per_user ctx msg) (u :: us))
      with (send (with_recipient msg (workspaceId ctx), NotificationRootType)
            :: map (per_user ctx msg) (u :: us)).
    cbn [Promise_all]. unfold bind at 1. unfold send at 1.
    rewrite Promise_all_per_user. cbn [lookups published].
    now rewrite <- app_assoc.
Qed.

Lemma response_web (ctx : HandlerContext) (msg : Notification) (idn : Identity)
      (w : World Event) :
  web_identity ctx = Some idn ->
  response ctx msg w
  = (tt, mkWorld (lookups w)
                 (published w
                  ++ [(with_recipient msg (workspaceId ctx ++ "-" ++ Js.template (sub idn)),
                       NotificationRootType)])).
Proof. intros H. unfold response. rewrite H. reflexivity. Qed.

Lemma response_slack (ctx : HandlerContext) (msg : Notification) (sl : SlackSource)
      (w : World Event) :
  web_identity ctx = None ->
  slack_origin ctx = Some sl ->
  response ctx msg w
  = let variables := {| teamId := slack_team_id sl; screenName := slack_user_name sl |} in
    let login := get_login (graphClient ctx variables) in
    (tt, mkWorld (lookups w ++ [variables])
                 (published w
                  ++ if Js.truthy login
                     then [(with_recipient msg (workspaceId ctx ++ "-" ++ Js.template login),
                            NotificationRootType)]
                     else [])).
Proof.
  intros Hw Hs. unfold response. rewrite Hw, Hs. unfold bind, query. cbv zeta.
  destruct (Js.truthy _); unfold send, resolve; simpl; rewrite ?app_nil_r; reflexivity.
Qed.

Lemma response_other (ctx : HandlerContext) (msg : Notification) (w : World Event) :
  web_identity ctx = None ->
  slack_origin ctx = None ->
  response ctx msg w
  = (tt, mkWorld (lookups w)
                 (published w
                  ++ [(with_recipient msg (workspaceId ctx), NotificationRootType)])).
Proof. intros Hw Hs. unfold response. rewrite Hw, Hs. reflexivity. Qed.

(** ** Addresses *)

Lemma workspace_wide_with_recipient (ctx : HandlerContext) (msg : Notification)
      (addr : string) (root : RootType) :
  workspace_wide ctx (with_recipient msg addr, root) = String.eqb addr (workspaceId ctx).
Proof. reflexivity. Qed.

(** An address with a user part is never the bare workspace id. *)
Lemma user_address_not_workspace (ws user : string) :
  String.eqb (ws ++ "-" ++ user) ws = false.
Proof.
  apply String.eqb_neq. apply append_nonempty_neq. discriminate.
Qed.

Lemma per_user_events_not_workspace_wide (ctx : HandlerContext) (msg : Notification)
      (user : ChatUser) :
  filter (workspace_wide ctx) (per_user_events ctx msg user) = [].
Proof.
  unfold per_user_events. cbv zeta. destruct (Js.truthy _); [|reflexivity].
  cbn [filter]. now rewrite workspace_wide_with_recipient, user_address_not_workspace.
Qed.

Lemma flat_map_per_user_events_not_workspace_wide (ctx : HandlerContext) (msg : Notification)
      (us : list ChatUser) :
  filter (workspace_wide ctx) (flat_map (per_user_events ctx msg) us) = [].
Proof.
  induction us as [|u us IH]; simpl; [reflexivity|].
  now rewrite filter_app, per_user_events_not_workspace_wide, IH.
Qed.

(** ** The listener as a whole *)

Section Properties.

Variable JSON_stringify : SlackMessage -> string.
Variable isSlackMessage : Message -> bool.

(** Past the three guards the listener is one of its two branches. *)
Lemma messageSent_forwarded listener rt message destinations options ctx slackMessage :
  proceeds listener rt = true ->
  slackMessage_of isSlackMessage message = Some slackMessage ->
  ignore_of options = false ->
  messageSent JSON_stringify isSlackMessage listener rt message destinations options ctx
  = let msg := msg_of JSON_stringify options rt slackMessage (actions_of ctx slackMessage) in
    if no_destinations destinations
    then response ctx msg
    else addressed ctx msg destinations.
Proof.
  intros Hp Hs Hi. unfold messageSent. rewrite Hp, Hs, Hi. reflexivity.
Qed.

(** A guard that fails leaves the listener with nothing to do. *)
Lemma messageSent_skipped listener rt message destinations options ctx :
  proceeds listener rt = false
  \/ slackMessage_of isSlackMessage message = None
  \/ ignore_of options = true ->
  messageSent JSON_stringify isSlackMessage listener rt message destinations options ctx
  = resolve tt.
Proof.
  intros H. unfold messageSent.
  destruct (proceeds listener rt); [|reflexivity].
  destruct (slackMessage_of isSlackMessage message); [|reflexivity].
  destruct (ignore_of options); [reflexivity|].
  destruct H as [H|[H|H]]; discriminate.
Qed.

(** Every event the listener publishes is the one record built for the
    message, copied and given an address, under the [Notification] root. *)
Lemma published_clones listener rt message destinations options ctx e :
  In e (published (run (messageSent JSON_stringify isSlackMessage
                                    listener rt message destinations options ctx))) ->
  exists slackMessage addr,
    slackMessage_of isSlackMessage message = Some slackMessage
    /\ e = (with_recipient
              (msg_of JSON_stringify options rt slackMessage (actions_of ctx slackMessage))
              addr,
            NotificationRootType).
Proof.
  destruct (proceeds listener rt) eqn:Hp;
    [|rewrite messageSent_skipped by auto; intros []].
  destruct (slackMessage_of isSlackMessage message) as [sm|] eqn:Hs;
    [|rewrite messageSent_skipped by auto; intros []].
  destruct (ignore_of options) eqn:Hi;
    [rewrite messageSent_skipped by auto; intros []|].
  rewrite (messageSent_forwarded _ _ _ _ _ _ sm Hp Hs Hi). cbv zeta.
  set (msg := msg_of JSON_stringify options rt sm (actions_of ctx sm)).
  intros Hin. exists sm. unfold run in Hin.
  destruct (no_destinations destinations).
  - destruct (web_identity ctx) as [idn|] eqn:Hw.
    + rewrite (response_web _ _ idn _ Hw) in Hin. simpl in Hin.
      destruct Hin as [<-|[]]. eauto.
    + destruct (slack_origin ctx) as [sl|] eqn:Hsl.
      * rewrite (response_slack _ _ sl _ Hw Hsl) in Hin. cbv zeta in Hin. simpl in Hin.
        destruct (Js.truthy _); simpl in Hin; [destruct Hin as [<-|[]]; eauto | contradiction].
      * rewrite (response_other _ _ _ Hw Hsl) in Hin. simpl in Hin.
        destruct Hin as [<-|[]]. eauto.
  - rewrite addressed_run in Hin. simpl in Hin. destruct Hin as [<-|Hin]; [eauto|].
    apply in_flat_map in Hin. destruct Hin as [u [_ Hin]].
    unfold per_user_events in Hin. cbv zeta in Hin.
    destruct (Js.truthy _); simpl in Hin; [destruct Hin as [<-|[]]; eauto | contradiction].
Qed.

(** C6. The listener goes on only in a worker of a clustered client or in
    a client that is not clustered: in every other process (the master of
    a clustered client) a message-sent event is answered by a promise that
    resolves with no identity lookup made and no event published,
    whatever the log was before. *)
Theorem messageSent_only_where_it_proceeds listener rt message destinations options ctx :
  (clustered listener && isWorker rt) || negb (clustered listener) = false ->
  forall w,
    messageSent JSON_stringify isSlackMessage listener rt message destinations options ctx w
    = (tt, w).
Proof.
  intros H w. rewrite messageSent_skipped; [reflexivity|]. left. exact H.
Qed.

(** C7. Options whose id has "lifecycle" somewhere inside, and options
    whose [dashboard] flag is the boolean [false], stop the listener before
    it resolves anything: the promise resolves, no identity lookup is made
    and no event is published. *)
Theorem messageSent_ignores_lifecycle_and_suppressed
        listener rt message destinations (o : MessageOptions) ctx :
  (exists pre post, Options.id o = Some (pre ++ "lifecycle" ++ post)%string)
  \/ Options.dashboard o = Some false ->
  forall w,
    messageSent JSON_stringify isSlackMessage listener rt message destinations (Some o) ctx w
    = (tt, w).
Proof.
  intros H w. rewrite messageSent_skipped; [reflexivity|]. right; right.
  unfold ignore_of. apply orb_true_iff. destruct H as [[pre [post Hid]]|Hd].
  - left. rewrite Hid. apply andb_true_iff. split.
    + destruct pre; reflexivity.
    + apply includes_spec. now exists pre, post.
  - right. now rewrite Hd.
Qed.

(** C2. A forwarded message that comes with destinations (a single
    destination or a non-empty array) has exactly one workspace-wide event
    published for it, addressed to the bare workspace id, ahead of the
    per-user events; no test on the channels of the destinations is made. *)
Theorem addressed_message_one_workspace_event
        listener rt message destinations options ctx slackMessage :
  proceeds listener rt = true ->
  slackMessage_of isSlackMessage message = Some slackMessage ->
  ignore_of options = false ->
  no_destinations destinations = false ->
  let msg := msg_of JSON_stringify options rt slackMessage (actions_of ctx slackMessage) in
  let w := run (messageSent JSON_stringify isSlackMessage
                            listener rt message destinations options ctx) in
  published w
  = (with_recipient msg (workspaceId ctx), NotificationRootType)
    :: flat_map (per_user_events ctx msg) (mentioned_users (dest_of destinations))
  /\ List.length (filter (workspace_wide ctx) (published w)) = 1.
Proof.
  intros Hp Hs Hi Hd msg w. subst w.
  rewrite (messageSent_forwarded _ _ _ _ _ _ slackMessage Hp Hs Hi). cbv zeta.
  rewrite Hd. unfold run. rewrite addressed_run. cbn [snd published no_effects app].
  split; [reflexivity|].
  cbn [filter]. rewrite workspace_wide_with_recipient, String.eqb_refl.
  now rewrite flat_map_per_user_events_not_workspace_wide.
Qed.

(** C4. A forwarded message without destinations whose request came from
    a chat session makes exactly one identity lookup, for the team id and
    the user name of the chat session.  When the lookup gives a login (a
    truthy value on the path) exactly one event is published, and the
    address it carries is the workspace id, a dash and that login; when it
    gives none, nothing is published and the promise resolves all the
    same. *)
Theorem response_to_chat_origin
        listener rt message destinations options ctx slackMessage s :
  proceeds listener rt = true ->
  slackMessage_of isSlackMessage message = Some slackMessage ->
  ignore_of options = false ->
  no_destinations destinations = true ->
  source ctx = Some s ->
  user_agent s = "slack" ->
  let msg := msg_of JSON_stringify options rt slackMessage (actions_of ctx slackMessage) in
  let variables := {| teamId := slack_team_id (slack s);
                      screenName := slack_user_name (slack s) |} in
  let login := get_login (graphClient ctx variables) in
  let relay := messageSent JSON_stringify isSlackMessage
                           listener rt message destinations options ctx in
  lookups (run relay) = [variables]
  /\ (Js.truthy login = true ->
      published (run relay)
      = [(with_recipient msg (workspaceId ctx ++ "-" ++ Js.template login),
          NotificationRootType)]
      /\ map address_of (published (run relay))
         = [Some (workspaceId ctx ++ "-" ++ Js.template login)%string]
      /\ map snd (published (run relay)) = [NotificationRootType])
  /\ (Js.truthy login = false ->
      published (run relay) = [] /\ relay no_effects = (tt, mkWorld [variables] [])).
Proof.
  intros Hp Hs Hi Hd Hsrc Hua msg variables login relay. subst relay.
  rewrite (messageSent_forwarded _ _ _ _ _ _ slackMessage Hp Hs Hi). cbv zeta.
  rewrite Hd. unfold run.
  assert (Hw : web_identity ctx = None)
    by (unfold web_identity; rewrite Hsrc, Hua; reflexivity).
  assert (Hsl : slack_origin ctx = Some (slack s))
    by (unfold slack_origin; rewrite Hsrc, Hua; reflexivity).
  rewrite (response_slack _ _ _ _ Hw Hsl). cbv zeta.
  cbn [snd lookups published no_effects app]. fold variables. fold login.
  split; [reflexivity|]. split; intros Ht; rewrite Ht.
  - repeat split.
  - split; reflexivity.
Qed.

(** C5, as amended. A forwarded message that comes with destinations:
    for every user a destination mentions by a non-empty screen name whose
    identity lookup finds no login on the path, the lookup is made, its
    callback publishes exactly one event, and the address that event
    carries is the workspace id, a dash and the raw screen name.  The same
    user asked for in the response branch, with the same answer, gets
    nothing. *)
Theorem unmatched_user_falls_back_to_screen_name
        listener rt message destinations options ctx slackMessage sd us u :
  proceeds listener rt = true ->
  slackMessage_of isSlackMessage message = Some slackMessage ->
  ignore_of options = false ->
  no_destinations destinations = false ->
  In sd (dest_of destinations) ->
  users sd = Some us ->
  In u us ->
  u <> "" ->
  get_login (graphClient ctx {| teamId := team sd; screenName := u |}) = Js.Undefined ->
  let user := {| teamId := team sd; screenName := u |} in
  let msg := msg_of JSON_stringify options rt slackMessage (actions_of ctx slackMessage) in
  let fallback := (with_recipient msg (workspaceId ctx ++ "-" ++ u), NotificationRootType) in
  let w := run (messageSent JSON_stringify isSlackMessage
                            listener rt message destinations options ctx) in
  In user (lookups w)
  /\ per_user_events ctx msg user = [fallback]
  /\ In fallback (published w)
  /\ map address_of (per_user_events ctx msg user)
     = [Some (workspaceId ctx ++ "-" ++ u)%string]
  /\ In (Some (workspaceId ctx ++ "-" ++ u)%string) (map address_of (published w))
  /\ (forall sl,
         slack_team_id sl = team sd ->
         slack_user_name sl = u ->
         let chat := Some {| user_agent := "slack"; web := None; slack := sl |} in
         published (run (response (with_source ctx chat) msg)) = []).
Proof.
  intros Hp Hs Hi Hd Hsd Hus Hu Hne Hlogin user msg fallback w.
  assert (Hm : In user (mentioned_users (dest_of destinations))).
  { apply in_flat_map. exists sd. split; [exact Hsd|].
    unfold mentions. rewrite Hus.
    apply (in_map (fun u => {| teamId := team sd; screenName := u |})). exact Hu. }
  assert (He : per_user_events ctx msg user = [fallback]).
  { assert (Ht : Js.truthy_string u = true) by (destruct u; [congruence | reflexivity]).
    unfold per_user_events, user. cbv zeta. rewrite Hlogin.
    cbn [get_or screenName Js.truthy Js.template]. now rewrite Ht. }
  assert (Hin : In fallback (published w)).
  { subst w. rewrite (messageSent_forwarded _ _ _ _ _ _ slackMessage Hp Hs Hi). cbv zeta.
    rewrite Hd. unfold run. rewrite addressed_run.
    cbn [snd published no_effects app]. fold msg.
    right. apply in_flat_map. exists user. split; [exact Hm|]. rewrite He. now left. }
  split.
  { subst w. rewrite (messageSent_forwarded _ _ _ _ _ _ slackMessage Hp Hs Hi). cbv zeta.
    rewrite Hd. unfold run. rewrite addressed_run. exact Hm. }
  split; [exact He|]. split; [exact Hin|]. split; [now rewrite He|]. split.
  - change (Some (workspaceId ctx ++ "-" ++ u)%string) with (address_of fallback).
    apply in_map. exact Hin.
  - intros sl Ht Hn. cbv zeta. unfold run.
    rewrite (response_slack _ _ sl) by reflexivity. cbv zeta.
    cbn [snd published no_effects app with_source graphClient].
    rewrite Ht, Hn, Hlogin. reflexivity.
Qed.

(** C10. A forwarded message without destinations whose request came from
    a web session that carries no identity is not dropped and asks for no
    identity: exactly one event is published, the address it carries is the
    bare workspace id, and a request of any unrecognised origin (or of none)
    has the very same outcome. *)
Theorem web_origin_without_identity_goes_workspace_wide
        listener rt message destinations options ctx slackMessage s :
  proceeds listener rt = true ->
  slackMessage_of isSlackMessage message = Some slackMessage ->
  ignore_of options = false ->
  no_destinations destinations = true ->
  source ctx = Some s ->
  user_agent s = "web" ->
  (forall wb, web s = Some wb -> identity wb = None) ->
  let msg := msg_of JSON_stringify options rt slackMessage (actions_of ctx slackMessage) in
  let w := run (messageSent JSON_stringify isSlackMessage
                            listener rt message destinations options ctx) in
  w = mkWorld [] [(with_recipient msg (workspaceId ctx), NotificationRootType)]
  /\ map address_of (published w) = [Some (workspaceId ctx)]
  /\ map snd (published w) = [NotificationRootType]
  /\ (forall other,
         (forall s', other = Some s' ->
                     user_agent s' <> "web" /\ user_agent s' <> "slack") ->
         run (messageSent JSON_stringify isSlackMessage
                          listener rt message destinations options (with_source ctx other))
         = w).
Proof.
  intros Hp Hs Hi Hd Hsrc Hua Hid msg w.
  assert (Hw : web_identity ctx = None).
  { unfold web_identity. rewrite Hsrc, Hua. cbn.
    destruct (web s) as [wb|] eqn:E; [exact (Hid wb eq_refl) | reflexivity]. }
  assert (Hsl : slack_origin ctx = None)
    by (unfold slack_origin; rewrite Hsrc, Hua; reflexivity).
  assert (Hrun : w = mkWorld [] [(with_recipient msg (workspaceId ctx), NotificationRootType)]).
  { subst w. rewrite (messageSent_forwarded _ _ _ _ _ _ slackMessage Hp Hs Hi). cbv zeta.
    rewrite Hd. unfold run. now rewrite (response_other _ _ _ Hw Hsl). }
  split; [exact Hrun|]. split; [now rewrite Hrun|]. split; [now rewrite Hrun|].
  intros other Hother. rewrite Hrun.
  rewrite (messageSent_forwarded _ _ _ _ _ _ slackMessage Hp Hs Hi). cbv zeta.
  rewrite Hd. unfold run. rewrite response_other; [reflexivity| |].
  - unfold web_identity. cbn [with_source source]. destruct other as [s'|]; [|reflexivity].
    destruct (Hother s' eq_refl) as [Hnw _].
    apply String.eqb_neq in Hnw. now rewrite Hnw.
  - unfold slack_origin. cbn [with_source source]. destruct other as [s'|]; [|reflexivity].
    destruct (Hother s' eq_refl) as [_ Hns].
    apply String.eqb_neq in Hns. now rewrite Hns.
Qed.

(** C8. Any two events published for one message-sent event carry the
    same key, ts, ttl, post, body and actions (and the same content type
    and root type): the address of the recipient is the only place where
    they can differ, so two of them with the same address are equal. *)
Theorem recipient_clones_differ_in_address_only
        listener rt message destinations options ctx e1 e2 :
  let w := run (messageSent JSON_stringify isSlackMessage
                            listener rt message destinations options ctx) in
  In e1 (published w) ->
  In e2 (published w) ->
  differ_in_address_only e1 e2.
Proof.
  intros w H1 H2.
  apply published_clones in H1. destruct H1 as [sm1 [a1 [Hs1 ->]]].
  apply published_clones in H2. destruct H2 as [sm2 [a2 [Hs2 ->]]].
  assert (sm2 = sm1) by congruence. subst sm2.
  unfold differ_in_address_only. rewrite !with_recipient_fields. cbn.
  repeat split; try reflexivity.
  intros Ha. now inversion Ha.
Qed.

(** C3, as amended. Every event the listener publishes is tagged with
    the slack JSON content type, for a bare string (which is wrapped into
    a chat message that has only a text) as for a structured message. *)
Theorem forwarded_content_type_is_slack_json
        listener rt message destinations options ctx :
  Forall (fun e : Event => contentType (fst e) = SlackJson)
         (published (run (messageSent JSON_stringify isSlackMessage
                                      listener rt message destinations options ctx))).
Proof.
  apply Forall_forall. intros e He.
  apply published_clones in He. destruct He as [sm [a [_ ->]]].
  now rewrite with_recipient_fields.
Qed.

End Properties.

(** ** Action flattening *)

Lemma filter_truthy_app {A} (l1 l2 : list (option A)) :
  filter_truthy (l1 ++ l2) = filter_truthy l1 ++ filter_truthy l2.
Proof.
  induction l1 as [|[a|] l1 IH]; simpl; [reflexivity | now rewrite IH | exact IH].
Qed.

(** The [undefined] that an attachment without actions leaves in the
    flattened array goes the way of the other falsy entries. *)
Lemma flatten_entries_filtered (atts : list Attachment) :
  filter_truthy (Lodash.flatten (map actions_entry atts)) = concatenated_actions atts.
Proof.
  unfold concatenated_actions.
  induction atts as [|a atts IH]; [reflexivity|].
  cbn [map concat Lodash.flatten]. unfold actions_entry at 1, action_list at 1.
  destruct (att_actions a) as [l|].
  - now rewrite !filter_truthy_app, IH.
  - cbn [filter_truthy app]. exact IH.
Qed.

Lemma raw_flatten_entries_filtered (atts : list Raw.Attachment) :
  Raw.truthy_actions atts = raw_concatenated_actions atts.
Proof.
  unfold Raw.truthy_actions, raw_concatenated_actions.
  induction atts as [|a atts IH]; [reflexivity|].
  cbn [map concat Lodash.flatten]. unfold Raw.actions_entry at 1, raw_action_list at 1.
  destruct (Raw.raw_actions a) as [l|].
  - now rewrite !filter_truthy_app, IH.
  - cbn [filter_truthy app]. exact IH.
Qed.

Lemma raw_action_of_none (ctx : HandlerContext) (a : Raw.Action) :
  Raw.action_of ctx a = None <-> Raw.act_command a = None.
Proof.
  unfold Raw.action_of, Raw.command_referencing.
  destruct (Raw.act_command a); split; congruence.
Qed.

Lemma raw_action_of_made_from (ctx : HandlerContext) (a : Raw.Action) (x : NotifactionAction) :
  Raw.action_of ctx a = Some x -> made_from ctx a x.
Proof.
  unfold Raw.action_of, Raw.command_referencing, made_from.
  destruct (Raw.act_command a) as [c|]; [|discriminate].
  intros [= <-]. repeat split.
Qed.

Lemma map_or_throw_none {A B} (f : A -> option B) (l : list A) :
  Raw.map_or_throw f l = None <-> exists a, In a l /\ f a = None.
Proof.
  induction l as [|a l IH]; simpl.
  - split; [discriminate | intros [a [[] _]]].
  - destruct (f a) as [b|] eqn:E.
    + destruct (Raw.map_or_throw f l) as [bs|].
      * split; [discriminate|]. intros [a' [[<-|Hin] Ha']]; [congruence|].
        assert (H : Some bs = None) by (apply IH; now exists a'). discriminate H.
      * split; [|reflexivity]. intros _.
        destruct (proj1 IH eq_refl) as [a' [Hin Ha']]. exists a'. auto.
    + split; [|reflexivity]. intros _. exists a. auto.
Qed.

Lemma map_or_throw_some {A B} (f : A -> option B) (l : list A) (bs : list B) :
  Raw.map_or_throw f l = Some bs -> Forall2 (fun a b => f a = Some b) l bs.
Proof.
  revert bs; induction l as [|a l IH]; simpl; intros bs H.
  - injection H as <-. constructor.
  - destruct (f a) as [b|] eqn:E; [|discriminate].
    destruct (Raw.map_or_throw f l) as [bs'|]; [|discriminate].
    injection H as <-. constructor; [exact E | now apply IH].
Qed.

(** C9, as amended. For every attachment list whose truthy actions all
    reference a command, the actions of the notification are made from the
    action lists of the attachments one after the other, in the order of the
    attachments and, inside one attachment, in the order of its list,
    without the falsy entries: one record for every such action, with the
    text and the command name of that action, of type "button" and under
    the calling registration.  Attachments [A1{actions:[a,b]}, A2{actions:[c]}]
    give the records of a, b and c in this order. *)
Theorem actions_flattened_in_order (ctx : HandlerContext) (t : option string)
        (atts : list Raw.Attachment) :
  Forall (fun a => Raw.act_command a <> None) (raw_concatenated_actions atts) ->
  (exists acts,
      Raw.actions_of ctx {| Raw.raw_text := t; Raw.raw_attachments := Some atts |}
      = Some acts
      /\ Forall2 (made_from ctx) (raw_concatenated_actions atts) acts)
  /\ (forall f1 f2 ta ca tb cb tc cc,
         let a := {| Raw.act_text := ta; Raw.act_command := Some ca |} in
         let b := {| Raw.act_text := tb; Raw.act_command := Some cb |} in
         let c := {| Raw.act_text := tc; Raw.act_command := Some cc |} in
         exists acts,
           Raw.actions_of ctx
             {| Raw.raw_text := t;
                Raw.raw_attachments :=
                  Some [ {| Raw.raw_fallback := f1;
                            Raw.raw_actions := Some [Some a; Some b] |};
                         {| Raw.raw_fallback := f2;
                            Raw.raw_actions := Some [Some c] |} ] |}
           = Some acts
           /\ map a_text acts = [ta; tb; tc]
           /\ map a_command acts = [cmd_name ca; cmd_name cb; cmd_name cc]
           /\ map a_type acts = [Button; Button; Button]).
Proof.
  intros Hc. split.
  - unfold Raw.actions_of. cbn [Raw.raw_attachments].
    fold (Raw.truthy_actions atts). rewrite raw_flatten_entries_filtered.
    destruct (Raw.map_or_throw (Raw.action_of ctx) (raw_concatenated_actions atts))
      as [acts|] eqn:E.
    + exists acts. split; [reflexivity|].
      apply map_or_throw_some in E.
      eapply Forall2_impl; [|exact E]. intros a x. apply raw_action_of_made_from.
    + exfalso. apply map_or_throw_none in E. destruct E as [a [Hin Ha]].
      apply raw_action_of_none in Ha.
      rewrite Forall_forall in Hc. exact (Hc a Hin Ha).
  - intros f1 f2 ta ca tb cb tc cc a b c. eexists. split; [reflexivity|].
    repeat split.
Qed.

(** ** Duplicate mentions *)

(** X6. A forwarded message with destinations has one identity lookup for
    every mention of a user, in the order of the mentions, repeated mentions
    included. *)
Lemma lookups_one_per_mention
      (JSON_stringify : SlackMessage -> string) (isSlackMessage : Message -> bool)
      listener rt message destinations options ctx slackMessage :
  proceeds listener rt = true ->
  slackMessage_of isSlackMessage message = Some slackMessage ->
  ignore_of options = false ->
  no_destinations destinations = false ->
  lookups (run (messageSent JSON_stringify isSlackMessage
                            listener rt message destinations options ctx))
  = mentioned_users (dest_of destinations).
Proof.
  intros Hp Hs Hi Hd.
  rewrite (messageSent_forwarded _ _ _ _ _ _ _ _ slackMessage Hp Hs Hi). cbv zeta.
  rewrite Hd. unfold run. now rewrite addressed_run.
Qed.

(** C1. Two mentions of the same user are two objects on [users], which
    [_.uniq] keeps both: "bob" named by two destinations, or twice by one,
    is looked up twice and gets two per-user events. *)
Theorem duplicate_mention_is_looked_up_twice
        (JSON_stringify : SlackMessage -> string) (isSlackMessage : Message -> bool)
        (rt : Runtime) :
  let relay := fun destinations =>
                 run (messageSent JSON_stringify isSlackMessage Sample.single rt
                                  Sample.hello destinations None (Sample.ctx None)) in
  let two := relay (DestinationArray [Sample.to_bob; Sample.to_bob]) in
  let one := relay (DestinationArray [Sample.to_bob_twice]) in
  lookups two = [Sample.bob; Sample.bob]
  /\ lookups_for Sample.bob two = 2
  /\ map address_of (published two) = [Some "W1"; Some "W1-bob"; Some "W1-bob"]
  /\ lookups one = [Sample.bob; Sample.bob]
  /\ map address_of (published one) = [Some "W1"; Some "W1-bob"; Some "W1-bob"].
Proof. repeat split. Qed.

(** ** Falsy logins *)

(** A [login] that is there but [null] is not replaced by the screen name,
    and nothing is published for the user. *)
Lemma null_login_is_dropped (ctx : HandlerContext) (msg : Notification) (user : ChatUser) :
  get_login (graphClient ctx user) = Js.Null ->
  per_user_events ctx msg user = [].
Proof. intros H. unfold per_user_events. now rewrite H. Qed.

(** The record built for one action of a command with one parameter. *)
Example action_of_command_a :
  action_of (Sample.ctx None) Sample.command_a
  = {| a_text := "a"; a_type := Button; a_registration := "reg"; a_command := "A";
       a_parameters := [ {| name := "k"; value := Some "v" |} ] |}.
Proof. reflexivity. Qed.

(** ** The earlier revision *)

(** In the earlier revision the content type follows the kind of message. *)
Lemma legacy_content_type_by_source
      (JSON_stringify : SlackMessage -> string) options rt message acts :
  contentType (Legacy.msg_of JSON_stringify options rt message acts)
  = content_type_by_source message.
Proof. now destruct message. Qed.

Lemma legacy_per_user_root ctx msg (us : list (Js.Obj ChatUser)) (w : World Legacy.Event) :
  Forall (fun e => Legacy.rootType e = UserNotificationRootType) (published w) ->
  Forall (fun e => Legacy.rootType e = UserNotificationRootType)
         (published (snd (Promise_all (map (Legacy.per_user ctx msg) us) w))).
Proof.
  revert w; induction us as [|u us IH]; intros w Hw; [exact Hw|].
  cbn [map Promise_all]. unfold bind at 1. unfold Legacy.per_user at 1.
  unfold bind at 1, query at 1. cbv zeta.
  destruct (Js.truthy _); apply IH; cbn; [|exact Hw].
  apply Forall_app. split; [exact Hw | now constructor].
Qed.

(** In the earlier revision destinations without a channel get no
    workspace-wide record: whatever is published is a user notification. *)
Lemma legacy_workspace_event_needs_channel ctx msg destinations :
  existsb Legacy.has_channel (dest_of destinations) = false ->
  Forall (fun e => Legacy.rootType e = UserNotificationRootType)
         (published (run (Legacy.addressed ctx msg destinations))).
Proof.
  intros H. unfold run, Legacy.addressed. cbv zeta. rewrite H. cbn [app].
  destruct (Nat.ltb 0 _); [|constructor].
  apply legacy_per_user_root. constructor.
Qed.

(** ** The properties at sample inputs *)

Lemma messageSent_only_where_it_proceeds_witness :
  (clustered Sample.clustered_listener && isWorker Sample.master)
  || negb (clustered Sample.clustered_listener) = false
  /\ messageSent Sample.stringify Sample.isSlackMessage
       Sample.clustered_listener Sample.master Sample.hello
       (OneDestination Sample.to_bob) None (Sample.ctx None) no_effects
     = (tt, no_effects).
Proof.
  split; [reflexivity|].
  apply (messageSent_only_where_it_proceeds Sample.stringify Sample.isSlackMessage).
  reflexivity.
Defined.

Lemma messageSent_ignores_lifecycle_and_suppressed_witness :
  (exists pre post,
      Options.id Sample.lifecycle_options = Some (pre ++ "lifecycle" ++ post)%string)
  /\ messageSent Sample.stringify Sample.isSlackMessage
       Sample.single Sample.master Sample.hello
       (OneDestination Sample.to_bob) (Some Sample.lifecycle_options) (Sample.ctx None)
       no_effects
     = (tt, no_effects).
Proof.
  assert (H : exists pre post,
             Options.id Sample.lifecycle_options = Some (pre ++ "lifecycle" ++ post)%string)
    by (exists "push/", "/1"; reflexivity).
  split; [exact H|].
  apply (messageSent_ignores_lifecycle_and_suppressed Sample.stringify Sample.isSlackMessage).
  left. exact H.
Defined.

Lemma addressed_message_one_workspace_event_witness :
  published (Sample.relay (OneDestination Sample.to_al_and_bob) (Sample.ctx None))
  = (with_recipient Sample.hello_msg "W1", NotificationRootType)
    :: flat_map (per_user_events (Sample.ctx None) Sample.hello_msg)
                (mentioned_users [Sample.to_al_and_bob])
  /\ List.length
       (filter (workspace_wide (Sample.ctx None))
               (published (Sample.relay (OneDestination Sample.to_al_and_bob)
                                        (Sample.ctx None)))) = 1.
Proof.
  apply (addressed_message_one_workspace_event
           Sample.stringify Sample.isSlackMessage Sample.single Sample.master Sample.hello
           (OneDestination Sample.to_al_and_bob) None (Sample.ctx None) Sample.wrapped_hello);
    reflexivity.
Defined.

Lemma response_to_chat_origin_witness :
  lookups (Sample.relay NoDestinations (Sample.ctx (Some Sample.slack_source)))
  = [ {| teamId := "T1"; screenName := "al" |} ]
  /\ published (Sample.relay NoDestinations (Sample.ctx (Some Sample.slack_source)))
     = [(with_recipient Sample.hello_msg "W1-alice", NotificationRootType)]
  /\ map address_of
         (published (Sample.relay NoDestinations (Sample.ctx (Some Sample.slack_source))))
     = [Some "W1-alice"].
Proof.
  destruct (response_to_chat_origin
              Sample.stringify Sample.isSlackMessage Sample.single Sample.master Sample.hello
              NoDestinations None (Sample.ctx (Some Sample.slack_source))
              Sample.wrapped_hello Sample.slack_source
              eq_refl eq_refl eq_refl eq_refl eq_refl eq_refl) as [Hl [Hp _]].
  destruct (Hp eq_refl) as [He [Ha _]].
  split; [exact Hl|]. split; [exact He | exact Ha].
Defined.

Lemma unmatched_user_falls_back_to_screen_name_witness :
  get_login (graphClient (Sample.ctx None) Sample.bob) = Js.Undefined
  /\ In Sample.bob
        (lookups (Sample.relay (OneDestination Sample.to_al_and_bob) (Sample.ctx None)))
  /\ In (with_recipient Sample.hello_msg "W1-bob", NotificationRootType)
        (published (Sample.relay (OneDestination Sample.to_al_and_bob) (Sample.ctx None)))
  /\ In (Some "W1-bob")
        (map address_of
             (published (Sample.relay (OneDestination Sample.to_al_and_bob)
                                      (Sample.ctx None)))).
Proof.
  split; [reflexivity|].
  assert (Hne : "bob" <> "") by discriminate.
  destruct (unmatched_user_falls_back_to_screen_name
              Sample.stringify Sample.isSlackMessage Sample.single Sample.master Sample.hello
              (OneDestination Sample.to_al_and_bob) None (Sample.ctx None)
              Sample.wrapped_hello Sample.to_al_and_bob ["al"; "bob"] "bob"
              eq_refl eq_refl eq_refl eq_refl
              (or_introl eq_refl) eq_refl (or_intror (or_introl eq_refl))
              Hne eq_refl) as [Hl [_ [Hp [_ [Ha _]]]]].
  split; [exact Hl|]. split; [exact Hp | exact Ha].
Defined.

(** C5, as first stated: every user whose lookup finds nothing would get an
    event addressed by the raw screen name.  A user mentioned by the empty
    screen name does not: the lookup is made and finds nothing, the fallback
    address part is falsy, and the workspace-wide event is all that is
    published. *)
Lemma fallback_for_every_user_counterexample :
  In Sample.nameless (mentioned_users (dest_of (OneDestination Sample.to_nameless)))
  /\ get_login (graphClient (Sample.ctx None) Sample.nameless) = Js.Undefined
  /\ lookups (Sample.relay (OneDestination Sample.to_nameless) (Sample.ctx None))
     = [Sample.nameless]
  /\ published (Sample.relay (OneDestination Sample.to_nameless) (Sample.ctx None))
     = [(with_recipient Sample.hello_msg "W1", NotificationRootType)]
  /\ map address_of
         (published (Sample.relay (OneDestination Sample.to_nameless) (Sample.ctx None)))
     = [Some "W1"]
  /\ ~ In (Some "W1-")
          (map address_of
               (published (Sample.relay (OneDestination Sample.to_nameless)
                                        (Sample.ctx None))))
  /\ ~ In (with_recipient Sample.hello_msg "W1-", NotificationRootType)
          (published (Sample.relay (OneDestination Sample.to_nameless) (Sample.ctx None))).
Proof.
  split; [left; reflexivity|].
  split; [reflexivity|]. split; [reflexivity|]. split; [reflexivity|].
  split; [reflexivity|]. split.
  - intros [H|[]]. discriminate H.
  - intros [H|[]]. discriminate H.
Qed.

Lemma web_origin_without_identity_goes_workspace_wide_witness :
  Sample.relay NoDestinations (Sample.ctx (Some Sample.web_source_without_identity))
  = mkWorld [] [(with_recipient Sample.hello_msg "W1", NotificationRootType)]
  /\ map address_of
         (published (Sample.relay NoDestinations
                                  (Sample.ctx (Some Sample.web_source_without_identity))))
     = [Some "W1"].
Proof.
  assert (Hid : forall wb, web Sample.web_source_without_identity = Some wb ->
                           identity wb = None)
    by (intros wb H; injection H as <-; reflexivity).
  destruct (web_origin_without_identity_goes_workspace_wide
              Sample.stringify Sample.isSlackMessage Sample.single Sample.master
              Sample.hello NoDestinations None
              (Sample.ctx (Some Sample.web_source_without_identity))
              Sample.wrapped_hello Sample.web_source_without_identity
              eq_refl eq_refl eq_refl eq_refl eq_refl eq_refl Hid) as [Hr [Ha _]].
  split; [exact Hr | exact Ha].
Defined.

Lemma recipient_clones_differ_in_address_only_witness :
  differ_in_address_only
    (with_recipient Sample.hello_msg "W1", NotificationRootType)
    (with_recipient Sample.hello_msg "W1-bob", NotificationRootType).
Proof.
  apply (recipient_clones_differ_in_address_only
           Sample.stringify Sample.isSlackMessage Sample.single Sample.master Sample.hello
           (OneDestination Sample.to_al_and_bob) None (Sample.ctx None)).
  - left. reflexivity.
  - right. right. left. reflexivity.
Defined.

(** C3, as first stated: the content type would tell a bare string
    ("text/plain") from a structured message.  It does not: the event
    published for the string "hello" is tagged with the slack JSON type. *)
Lemma content_type_by_source_counterexample :
  ~ Forall (fun e : Event => contentType (fst e) = content_type_by_source Sample.hello)
           (published (Sample.relay NoDestinations (Sample.ctx None))).
Proof.
  intros H. apply Forall_inv in H. discriminate H.
Qed.

(** * Further properties of the listener *)

Section Further.

Variable JSON_stringify : SlackMessage -> string.
Variable isSlackMessage : Message -> bool.

(** X2. The body of every published event is the serialised chat message:
    of the message itself when it is an object, of a message that has the
    string as its text and nothing else when it is a string; a string never
    brings actions with it. *)
Theorem published_body_is_the_serialised_message
        listener rt message destinations options ctx :
  Forall (fun e : Event =>
            match message with
            | MString s =>
              body (fst e) = JSON_stringify {| text := Some s; attachments := None |}
              /\ actions (fst e) = []
            | MObject o =>
              body (fst e) = JSON_stringify o
              /\ actions (fst e) = actions_of ctx o
            end)
         (published (run (messageSent JSON_stringify isSlackMessage
                                      listener rt message destinations options ctx))).
Proof.
  apply Forall_forall. intros e He.
  apply published_clones in He. destruct He as [sm [a [Hs ->]]].
  rewrite with_recipient_fields. cbn [fst body actions msg_of].
  destruct message as [s|o]; cbn in Hs.
  - injection Hs as <-. split; reflexivity.
  - destruct (isSlackMessage (MObject o)); [|discriminate].
    injection Hs as <-. split; reflexivity.
Qed.

(** X3. A message is ignored exactly when options are given and either their
    id has "lifecycle" somewhere inside or their [dashboard] flag is the
    boolean [false]; without options nothing is ignored. *)
Theorem ignore_of_iff (options : option MessageOptions) :
  ignore_of options = true
  <-> exists o,
      options = Some o
      /\ ((exists pre post, Options.id o = Some (pre ++ "lifecycle" ++ post)%string)
          \/ Options.dashboard o = Some false).
Proof.
  split.
  - destruct options as [o|]; [|discriminate]. intros H. exists o. split; [reflexivity|].
    unfold ignore_of in H. apply orb_true_iff in H. destruct H as [H|H].
    + left. destruct (Options.id o) as [i|]; [|discriminate].
      apply andb_true_iff in H. destruct H as [_ H].
      apply includes_spec in H. destruct H as [pre [post ->]]. now exists pre, post.
    + right. destruct (Options.dashboard o) as [[|]|]; try discriminate. reflexivity.
  - intros [o [-> H]]. unfold ignore_of. apply orb_true_iff.
    destruct H as [[pre [post Hid]]|Hd].
    + left. rewrite Hid. apply andb_true_iff. split.
      * destruct pre; reflexivity.
      * apply includes_spec. now exists pre, post.
    + right. now rewrite Hd.
Qed.

(** X4. A forwarded message without destinations whose request came from a
    web session with an identity is published once, addressed to the
    workspace id, a dash and the subject of the identity (the text
    "undefined" when the identity has no subject); no identity lookup is
    made. *)
Theorem response_to_web_identity
        listener rt message destinations options ctx slackMessage s wb idn :
  proceeds listener rt = true ->
  slackMessage_of isSlackMessage message = Some slackMessage ->
  ignore_of options = false ->
  no_destinations destinations = true ->
  source ctx = Some s ->
  user_agent s = "web" ->
  web s = Some wb ->
  identity wb = Some idn ->
  let msg := msg_of JSON_stringify options rt slackMessage (actions_of ctx slackMessage) in
  run (messageSent JSON_stringify isSlackMessage
                   listener rt message destinations options ctx)
  = mkWorld []
            [(with_recipient msg (workspaceId ctx ++ "-" ++ Js.template (sub idn)),
              NotificationRootType)]
  /\ (sub idn = Js.Undefined ->
      address_of (with_recipient msg (workspaceId ctx ++ "-" ++ Js.template (sub idn)),
                  NotificationRootType)
      = Some (workspaceId ctx ++ "-undefined")%string).
Proof.
  intros Hp Hs Hi Hd Hsrc Hua Hweb Hid msg.
  assert (Hw : web_identity ctx = Some idn)
    by (unfold web_identity; rewrite Hsrc, Hua, Hweb; exact Hid).
  split.
  - rewrite (messageSent_forwarded _ _ _ _ _ _ _ _ slackMessage Hp Hs Hi). cbv zeta.
    rewrite Hd. unfold run. now rewrite (response_web _ _ idn _ Hw).
  - intros Hsub. rewrite Hsub. reflexivity.
Qed.

Lemma mentioned_users_nil (dest : list Destination) :
  (forall d, In d dest -> users d = None \/ users d = Some []) ->
  mentioned_users dest = [].
Proof.
  induction dest as [|d dest IH]; intros H; [reflexivity|].
  cbn [mentioned_users flat_map]. fold (mentioned_users dest).
  rewrite IH by (intros d' Hd'; apply H; now right).
  unfold mentions. destruct (H d (or_introl eq_refl)) as [->| ->]; reflexivity.
Qed.

Lemma per_user_events_length (ctx : HandlerContext) (msg : Notification) (user : ChatUser) :
  List.length (per_user_events ctx msg user) <= 1.
Proof. unfold per_user_events. cbv zeta. destruct (Js.truthy _); simpl; lia. Qed.

Lemma flat_map_per_user_events_length (ctx : HandlerContext) (msg : Notification)
      (us : list ChatUser) :
  List.length (flat_map (per_user_events ctx msg) us) <= List.length us.
Proof.
  induction us as [|u us IH]; simpl; [lia|].
  rewrite length_app. pose proof (per_user_events_length ctx msg u). lia.
Qed.

(** X5. A forwarded message whose destinations name no user (their user
    lists are missing or empty, as for destinations that only name
    channels) makes no identity lookup and publishes one event and nothing
    else, under the [Notification] root and with the bare workspace id as
    the address it carries. *)
Theorem destinations_without_users
        listener rt message destinations options ctx slackMessage :
  proceeds listener rt = true ->
  slackMessage_of isSlackMessage message = Some slackMessage ->
  ignore_of options = false ->
  no_destinations destinations = false ->
  (forall d, In d (dest_of destinations) -> users d = None \/ users d = Some []) ->
  let msg := msg_of JSON_stringify options rt slackMessage (actions_of ctx slackMessage) in
  let w := run (messageSent JSON_stringify isSlackMessage
                            listener rt message destinations options ctx) in
  w = mkWorld [] [(with_recipient msg (workspaceId ctx), NotificationRootType)]
  /\ map address_of (published w) = [Some (workspaceId ctx)]
  /\ map snd (published w) = [NotificationRootType].
Proof.
  intros Hp Hs Hi Hd Hu msg w.
  assert (Hw : w = mkWorld [] [(with_recipient msg (workspaceId ctx), NotificationRootType)]).
  { subst w. rewrite (messageSent_forwarded _ _ _ _ _ _ _ _ slackMessage Hp Hs Hi).
    cbv zeta. rewrite Hd. unfold run.
    rewrite addressed_run, (mentioned_users_nil _ Hu). reflexivity. }
  rewrite Hw. repeat split.
Qed.

(** X7. A forwarded message with destinations publishes at least the
    workspace-wide event and at most one further event for every identity
    lookup it makes. *)
Theorem addressed_message_event_bounds
        listener rt message destinations options ctx slackMessage :
  proceeds listener rt = true ->
  slackMessage_of isSlackMessage message = Some slackMessage ->
  ignore_of options = false ->
  no_destinations destinations = false ->
  let w := run (messageSent JSON_stringify isSlackMessage
                            listener rt message destinations options ctx) in
  1 <= List.length (published w) <= 1 + List.length (lookups w).
Proof.
  intros Hp Hs Hi Hd w. subst w.
  rewrite (messageSent_forwarded _ _ _ _ _ _ _ _ slackMessage Hp Hs Hi). cbv zeta.
  rewrite Hd. unfold run. rewrite addressed_run.
  cbn [snd lookups published no_effects app List.length].
  pose proof (flat_map_per_user_events_length ctx
                (msg_of JSON_stringify options rt slackMessage (actions_of ctx slackMessage))
                (mentioned_users (dest_of destinations))).
  lia.
Qed.


(** X9. In the addressed branch a login that is on the path but is [null]
    or the empty string is not replaced by the screen name: the lookup is
    made and nothing is published for the user. *)
Theorem present_falsy_login_is_dropped (ctx : HandlerContext) (msg : Notification)
        (user : Js.Obj ChatUser) :
  get_login (graphClient ctx (Js.fields user)) = Js.Null
  \/ get_login (graphClient ctx (Js.fields user)) = Js.Str "" ->
  run (per_user ctx msg user) = mkWorld [Js.fields user] [].
Proof.
  intros H. unfold run. rewrite per_user_run. unfold per_user_events. cbv zeta.
  destruct H as [-> | ->]; reflexivity.
Qed.

(** X10. Whatever the listener publishes goes under the [Notification] root
    and is addressed inside the workspace of the context: to the workspace
    id itself, or to the workspace id followed by a dash and a user part. *)
Theorem published_addresses_in_workspace
        listener rt message destinations options ctx :
  Forall (fun e : Event =>
            snd e = NotificationRootType
            /\ exists a,
                address_of e = Some a
                /\ (a = workspaceId ctx
                    \/ exists user, a = (workspaceId ctx ++ "-" ++ user)%string))
         (published (run (messageSent JSON_stringify isSlackMessage
                                      listener rt message destinations options ctx))).
Proof.
  destruct (proceeds listener rt) eqn:Hp;
    [|rewrite messageSent_skipped by auto; constructor].
  destruct (slackMessage_of isSlackMessage message) as [sm|] eqn:Hs;
    [|rewrite messageSent_skipped by auto; constructor].
  destruct (ignore_of options) eqn:Hi;
    [rewrite messageSent_skipped by auto; constructor|].
  rewrite (messageSent_forwarded _ _ _ _ _ _ _ _ sm Hp Hs Hi). cbv zeta.
  set (msg := msg_of JSON_stringify options rt sm (actions_of ctx sm)).
  unfold run. destruct (no_destinations destinations).
  - destruct (web_identity ctx) as [idn|] eqn:Hw.
    + rewrite (response_web _ _ idn _ Hw). cbn [snd published no_effects app].
      constructor; [|constructor].
      split; [reflexivity|]. eexists. split; [reflexivity|]. right. eexists. reflexivity.
    + destruct (slack_origin ctx) as [sl|] eqn:Hsl.
      * rewrite (response_slack _ _ sl _ Hw Hsl). cbv zeta.
        cbn [snd published no_effects app].
        destruct (Js.truthy _); constructor; [|constructor].
        split; [reflexivity|]. eexists. split; [reflexivity|]. right. eexists. reflexivity.
      * rewrite (response_other _ _ _ Hw Hsl). cbn [snd published no_effects app].
        constructor; [|constructor].
        split; [reflexivity|]. eexists. split; [reflexivity|]. now left.
  - rewrite addressed_run. cbn [snd published no_effects app].
    constructor.
    + split; [reflexivity|]. eexists. split; [reflexivity|]. now left.
    + apply Forall_forall. intros e He.
      apply in_flat_map in He. destruct He as [u [_ He]].
      unfold per_user_events in He. cbv zeta in He.
      destruct (Js.truthy _); simpl in He; [|contradiction].
      destruct He as [<-|[]].
      split; [reflexivity|]. eexists. split; [reflexivity|]. right. eexists. reflexivity.
Qed.

(** X11. A message without destinations costs at most one identity lookup
    and gives at most one event, and a lookup is made only for a request
    that came from a chat session. *)
Theorem response_bounds listener rt message destinations options ctx :
  no_destinations destinations = true ->
  let w := run (messageSent JSON_stringify isSlackMessage
                            listener rt message destinations options ctx) in
  List.length (lookups w) <= 1
  /\ List.length (published w) <= 1
  /\ (lookups w <> [] -> exists s, source ctx = Some s /\ user_agent s = "slack").
Proof.
  intros Hd w. subst w.
  destruct (proceeds listener rt) eqn:Hp;
    [|rewrite messageSent_skipped by auto; cbn; repeat split; try lia; congruence].
  destruct (slackMessage_of isSlackMessage message) as [sm|] eqn:Hs;
    [|rewrite messageSent_skipped by auto; cbn; repeat split; try lia; congruence].
  destruct (ignore_of options) eqn:Hi;
    [rewrite messageSent_skipped by auto; cbn; repeat split; try lia; congruence|].
  rewrite (messageSent_forwarded _ _ _ _ _ _ _ _ sm Hp Hs Hi). cbv zeta.
  rewrite Hd. unfold run.
  destruct (web_identity ctx) as [idn|] eqn:Hw.
  - rewrite (response_web _ _ idn _ Hw). cbn. repeat split; try lia; congruence.
  - destruct (slack_origin ctx) as [sl|] eqn:Hsl.
    + rewrite (response_slack _ _ sl _ Hw Hsl). cbv zeta.
      cbn [snd lookups published no_effects app List.length].
      split; [lia|]. split; [destruct (Js.truthy _); simpl; lia|].
      intros _. unfold slack_origin in Hsl.
      destruct (source ctx) as [s|]; [|discriminate]. exists s. split; [reflexivity|].
      destruct (String.eqb (user_agent s) "slack") eqn:E; [|discriminate].
      now apply String.eqb_eq.
    + rewrite (response_other _ _ _ Hw Hsl). cbn. repeat split; try lia; congruence.
Qed.

(** X12. Key and times of the published events: the key is the id of the
    options when there is a non-empty one and the generated guid otherwise;
    the timestamp is that of the options unless it is missing or zero, when
    it is the current time; ttl and post are those of the options, and are
    absent when there are no options. *)
Theorem published_key_and_times listener rt message destinations options ctx :
  Forall (fun e : Event =>
            match options with
            | None =>
              key (fst e) = guid rt /\ ts (fst e) = Date_now rt
              /\ ttl (fst e) = None /\ post (fst e) = None
            | Some o =>
              (forall i, Options.id o = Some i -> i <> "" -> key (fst e) = i)
              /\ (Options.id o = None \/ Options.id o = Some "" -> key (fst e) = guid rt)
              /\ (forall t, Options.ts o = Some t -> t <> 0%Z -> ts (fst e) = t)
              /\ (Options.ts o = None \/ Options.ts o = Some 0%Z -> ts (fst e) = Date_now rt)
              /\ ttl (fst e) = Options.ttl o
              /\ post (fst e) = Options.post o
            end)
         (published (run (messageSent JSON_stringify isSlackMessage
                                      listener rt message destinations options ctx))).
Proof.
  apply Forall_forall. intros e He.
  apply published_clones in He. destruct He as [sm [a [_ ->]]].
  rewrite with_recipient_fields. cbn [fst key ts ttl post msg_of].
  destruct options as [o|]; [|repeat split].
  unfold key_of, ts_of. repeat split.
  - intros i Hid Hne. rewrite Hid. destruct i; [congruence | reflexivity].
  - intros [H|H]; rewrite H; reflexivity.
  - intros t Ht Hne. rewrite Ht. unfold Js.truthy_number.
    destruct (Z.eqb_spec t 0); [congruence | reflexivity].
  - intros [H|H]; rewrite H; reflexivity.
Qed.

End Further.

(** ** Calls that throw *)









(** ** Actions, answers and [_.uniq] *)

Lemma Forall2_map_r {A B} (R : A -> B -> Prop) (f : A -> B) (l : list A) :
  (forall x, R x (f x)) -> Forall2 R l (map f l).
Proof. intros H. induction l; simpl; constructor; auto. Qed.

(** X13. The parameters of a notification action follow the keys of the
    command's parameter object, one entry for every key in the same order.
    An entry has no value exactly when the value of the key is falsy
    ([false], [null], [undefined] or the empty string), and a non-empty
    string is its own value.  A command without a parameter object gives an
    action with no parameters. *)
Theorem action_parameters_follow_the_keys
        (ctx : HandlerContext) (t n : string) (ps : list (string * Js.Value)) :
  Forall2 (fun (kv : string * Js.Value) (p : ActionParameter) =>
             name p = fst kv
             /\ (value p = None <-> Js.truthy_value (snd kv) = false)
             /\ (forall s, snd kv = Js.VString s -> s <> "" -> value p = Some s))
          ps
          (a_parameters
             (action_of ctx {| cra_text := t;
                               command := {| cmd_name := n;
                                             cmd_parameters := Some ps |} |}))
  /\ a_parameters
       (action_of ctx {| cra_text := t;
                         command := {| cmd_name := n; cmd_parameters := None |} |})
     = [].
Proof.
  split; [|reflexivity].
  cbn [action_of a_parameters parameters_of command cmd_parameters].
  apply Forall2_map_r. intros [k v]. cbn [name value fst snd].
  split; [reflexivity|]. split.
  - destruct (Js.truthy_value v); split; congruence.
  - intros s -> Hne. destruct s; [congruence | reflexivity].
Qed.

(** X14. The login taken from an answer of the graph client is the login
    of the GitHub id of the person of the first member of the first team,
    whenever the answer has all of these, and whatever further teams and
    members it has; an answer that gives anything but [undefined] has all
    of them. *)
Theorem get_login_needs_the_whole_path (chatId : option ChatId) :
  (forall c t ts m ms p g,
      chatId = Some c ->
      ChatTeam c = Some (t :: ts) ->
      members t = Some (m :: ms) ->
      person m = Some p ->
      gitHubId p = Some g ->
      get_login chatId = login g)
  /\ (get_login chatId <> Js.Undefined ->
      exists c t ts m ms p g,
        chatId = Some c
        /\ ChatTeam c = Some (t :: ts)
        /\ members t = Some (m :: ms)
        /\ person m = Some p
        /\ gitHubId p = Some g
        /\ get_login chatId = login g).
Proof.
  split.
  - intros c t ts m ms p g -> Hc Hm Hp Hg.
    unfold get_login. now rewrite Hc, Hm, Hp, Hg.
  - intros Hn.
    destruct chatId as [c|]; [|now elim Hn].
    destruct (ChatTeam c) as [[|t ts]|] eqn:Hc;
      try (elim Hn; unfold get_login; now rewrite Hc).
    destruct (members t) as [[|m ms]|] eqn:Hm;
      try (elim Hn; unfold get_login; now rewrite Hc, Hm).
    destruct (person m) as [p|] eqn:Hp;
      [|elim Hn; unfold get_login; now rewrite Hc, Hm, Hp].
    destruct (gitHubId p) as [g|] eqn:Hg;
      [|elim Hn; unfold get_login; now rewrite Hc, Hm, Hp, Hg].
    exists c, t, ts, m, ms, p, g. repeat split; try assumption.
    unfold get_login. now rewrite Hc, Hm, Hp, Hg.
Qed.

Lemma existsb_same_iff {A} (same : A -> A -> bool) (v : A) (l : list A) :
  (forall x y, same x y = true <-> x = y) ->
  existsb (same v) l = true <-> In v l.
Proof.
  intros Hsame. rewrite existsb_exists. split.
  - intros [x [Hin Hx]]. apply Hsame in Hx. now subst.
  - intros Hin. exists v. split; [exact Hin | now apply Hsame].
Qed.

Lemma uniq_fold_by_value {A} (same : A -> A -> bool) (l acc : list A) :
  (forall x y, same x y = true <-> x = y) ->
  NoDup acc ->
  NoDup (fold_left (Lodash.uniq_step same) l acc)
  /\ (forall x, In x (fold_left (Lodash.uniq_step same) l acc) <-> In x acc \/ In x l).
Proof.
  intros Hsame. revert acc. induction l as [|v l IH]; intros acc Hnd; simpl.
  - split; [exact Hnd | intros x; tauto].
  - unfold Lodash.uniq_step at 2 4.
    destruct (existsb (same v) acc) eqn:E.
    + apply (existsb_same_iff same v acc Hsame) in E.
      destruct (IH acc Hnd) as [H1 H2]. split; [exact H1|].
      intros x. rewrite H2. split; [tauto|].
      intros [H|[H|H]]; subst; tauto.
    + assert (Hn : ~ In v acc).
      { intros Hin. apply (existsb_same_iff same v acc Hsame) in Hin. congruence. }
      assert (Hnd' : NoDup (acc ++ [v])).
      { apply NoDup_app; [exact Hnd | repeat constructor; auto |].
        intros x Hx [<-|[]]. exact (Hn Hx). }
      destruct (IH (acc ++ [v]) Hnd') as [H1 H2]. split; [exact H1|].
      intros x. rewrite H2, in_app_iff. simpl. tauto.
Qed.

(** X15. On values that [same] compares by what they hold, [_.uniq] keeps
    every value once: the result has no value twice and holds exactly the
    values of the array. *)
Theorem uniq_by_value {A} (same : A -> A -> bool) (array : list A) :
  (forall x y, same x y = true <-> x = y) ->
  NoDup (Lodash.uniq same array)
  /\ (forall x, In x (Lodash.uniq same array) <-> In x array).
Proof.
  intros Hsame. unfold Lodash.uniq.
  destruct (uniq_fold_by_value same array [] Hsame (NoDup_nil A)) as [H1 H2].
  split; [exact H1|]. intros x. rewrite H2. simpl. tauto.
Qed.

(** X16. For every list of destinations the objects pushed on [users] are
    one for every mention of a user, in the order of the mentions, and
    [_.uniq] hands all of them on: it compares the objects, not the pairs
    they hold. *)
Theorem users_survive_uniq (dest : list Destination) :
  Lodash.uniq Js.same_object (users_of dest) = users_of dest
  /\ map Js.fields (Lodash.uniq Js.same_object (users_of dest)) = mentioned_users dest.
Proof.
  rewrite uniq_users_of. split; [reflexivity | apply users_of_fields].
Qed.

(** ** Registration *)

Lemma dashboard_listeners_app (l1 l2 : list AutomationEventListener) :
  dashboard_listeners (l1 ++ l2) = dashboard_listeners l1 ++ dashboard_listeners l2.
Proof.
  induction l1 as [|[l|n] l1 IH]; simpl; [reflexivity | now rewrite IH | exact IH].
Qed.

(** X17. Configuring the client puts exactly one new listener behind the
    listeners that are there, which stay as they are, and leaves the cluster
    options alone: the list is one longer, and what follows the old
    listeners is the one listener of this package.  The new listener relays
    from every process of a client that is not clustered and only from the
    workers of one that is.  Configuring a second time adds a second
    listener. *)
Theorem configureDashboardNotifications_adds_one_listener (configuration : Configuration) :
  let configured := configureDashboardNotifications configuration in
  let added := {| clustered := enabled (cluster configuration) |} in
  List.length (listeners configured) = S (List.length (listeners configuration))
  /\ firstn (List.length (listeners configuration)) (listeners configured)
     = listeners configuration
  /\ skipn (List.length (listeners configuration)) (listeners configured)
     = [Dashboard added]
  /\ dashboard_listeners (listeners configured)
     = dashboard_listeners (listeners configuration) ++ [added]
  /\ cluster configured = cluster configuration
  /\ (forall rt, proceeds added rt = negb (enabled (cluster configuration)) || isWorker rt)
  /\ dashboard_listeners (listeners (configureDashboardNotifications configured))
     = dashboard_listeners (listeners configuration) ++ [added; added].
Proof.
  cbv zeta. unfold configureDashboardNotifications. cbn [listeners cluster].
  split; [|split; [|split; [|split; [|split; [|split]]]]].
  - rewrite length_app. cbn. lia.
  - rewrite firstn_app, Nat.sub_diag, firstn_all. cbn. apply app_nil_r.
  - rewrite skipn_app, Nat.sub_diag, skipn_all. reflexivity.
  - now rewrite dashboard_listeners_app.
  - reflexivity.
  - intros rt. unfold proceeds. cbn [clustered].
    destruct (enabled (cluster configuration)), (isWorker rt); reflexivity.
  - rewrite !dashboard_listeners_app, <- app_assoc. reflexivity.
Qed.

(** * Properties of the earlier revision *)

Lemma legacy_per_user_run (ctx : HandlerContext) (msg : Notification)
      (user : Js.Obj ChatUser) (w : World Legacy.Event) :
  Legacy.per_user ctx msg user w
  = (tt, mkWorld (lookups w ++ [Js.fields user])
                 (published w ++ legacy_per_user_events msg ctx (Js.fields user))).
Proof.
  unfold Legacy.per_user, legacy_per_user_events, bind, query.
  rewrite chat_user_eta. cbv zeta.
  destruct (Js.truthy _); unfold send, resolve; simpl; rewrite ?app_nil_r; reflexivity.
Qed.

Lemma legacy_Promise_all_per_user (ctx : HandlerContext) (msg : Notification)
      (us : list (Js.Obj ChatUser)) (w : World Legacy.Event) :
  Promise_all (map (Legacy.per_user ctx msg) us) w
  = (tt, mkWorld (lookups w ++ map Js.fields us)
                 (published w
                  ++ flat_map (legacy_per_user_events msg ctx) (map Js.fields us))).
Proof.
  revert w; induction us as [|u us IH]; intros w; simpl.
  - unfold resolve. rewrite !app_nil_r. now destruct w.
  - unfold bind at 1. rewrite legacy_per_user_run, IH. simpl.
    now rewrite <- !app_assoc.
Qed.

(** The addressed branch of the earlier revision. *)
Lemma legacy_addressed_run (ctx : HandlerContext) (msg : Notification)
      (destinations : Destinations) (w : World Legacy.Event) :
  Legacy.addressed ctx msg destinations w
  = (tt, mkWorld (lookups w ++ mentioned_users (dest_of destinations))
                 (published w
                  ++ (if existsb Legacy.has_channel (dest_of destinations)
                      then [Legacy.workspace_notification msg] else [])
                  ++ flat_map (legacy_per_user_events msg ctx)
                              (mentioned_users (dest_of destinations)))).
Proof.
  rewrite <- users_of_fields. unfold Legacy.addressed. cbv zeta. rewrite uniq_users_of.
  assert (Hus : (if Nat.ltb 0 (List.length (users_of (dest_of destinations)))
                 then map (Legacy.per_user ctx msg) (users_of (dest_of destinations))
                 else [])
                = map (Legacy.per_user ctx msg) (users_of (dest_of destinations)))
    by (destruct (users_of (dest_of destinations)); reflexivity).
  rewrite Hus.
  destruct (existsb Legacy.has_channel (dest_of destinations)).
  - cbn [app Promise_all]. unfold bind at 1. unfold send at 1.
    rewrite legacy_Promise_all_per_user. cbn [lookups published].
    now rewrite <- app_assoc.
  - cbn [app]. apply legacy_Promise_all_per_user.
Qed.

Lemma legacy_per_user_events_not_workspace_wide (msg : Notification) (ctx : HandlerContext)
      (us : list ChatUser) :
  filter legacy_workspace_wide (flat_map (legacy_per_user_events msg ctx) us) = [].
Proof.
  induction us as [|u us IH]; simpl; [reflexivity|].
  rewrite filter_app, IH, app_nil_r.
  unfold legacy_per_user_events. cbv zeta. destruct (Js.truthy _); reflexivity.
Qed.

Section LegacyProperties.

Variable JSON_stringify : SlackMessage -> string.
Variable isSlackMessage : Message -> bool.

Lemma legacy_messageSent_forwarded listener rt message destinations options ctx :
  proceeds listener rt = true ->
  isSlackMessage message = true ->
  ignore_of options = false ->
  Legacy.messageSent JSON_stringify isSlackMessage
                     listener rt message destinations options ctx
  = let msg := Legacy.msg_of JSON_stringify options rt message
                             (Legacy.actions_of ctx message) in
    if no_destinations destinations
    then Legacy.response ctx msg
    else Some (Legacy.addressed ctx msg destinations).
Proof.
  intros Hp Hs Hi. unfold Legacy.messageSent. rewrite Hp, Hs, Hi. reflexivity.
Qed.

(** X18. The earlier revision, for a forwarded message with destinations:
    one identity lookup is made for every mention of a user, and the
    workspace-wide record is sent once when some destination names a channel
    and not at all otherwise.  A message for destinations that name neither
    a channel nor a user is forwarded to nobody. *)
Theorem legacy_addressed_message
        listener rt message destinations options ctx :
  proceeds listener rt = true ->
  isSlackMessage message = true ->
  ignore_of options = false ->
  no_destinations destinations = false ->
  exists p,
    Legacy.messageSent JSON_stringify isSlackMessage
                       listener rt message destinations options ctx = Some p
    /\ lookups (run p) = mentioned_users (dest_of destinations)
    /\ List.length (filter legacy_workspace_wide (published (run p)))
       = (if existsb Legacy.has_channel (dest_of destinations) then 1 else 0)
    /\ (existsb Legacy.has_channel (dest_of destinations) = false ->
        mentioned_users (dest_of destinations) = [] ->
        run p = no_effects).
Proof.
  intros Hp Hs Hi Hd.
  rewrite (legacy_messageSent_forwarded _ _ _ _ _ _ Hp Hs Hi). cbv zeta. rewrite Hd.
  eexists. split; [reflexivity|]. unfold run. rewrite legacy_addressed_run.
  cbn [snd lookups published no_effects app]. split; [reflexivity|]. split.
  - rewrite filter_app, legacy_per_user_events_not_workspace_wide, app_nil_r.
    destruct (existsb Legacy.has_channel (dest_of destinations)); reflexivity.
  - intros Hc Hm. rewrite Hc, Hm. reflexivity.
Qed.

(** X19. The two revisions part on a user whose lookup finds no login: the
    earlier one publishes nothing for the user, the current one publishes
    one event, and the address it carries is the workspace id, a dash and
    the raw (non-empty) screen name.  Both make the lookup. *)
Theorem unmatched_user_in_both_revisions (ctx : HandlerContext) (msg : Notification)
        (user : Js.Obj ChatUser) :
  get_login (graphClient ctx (Js.fields user)) = Js.Undefined ->
  screenName (Js.fields user) <> "" ->
  run (Legacy.per_user ctx msg user) = mkWorld [Js.fields user] []
  /\ run (per_user ctx msg user)
     = mkWorld [Js.fields user]
               [(with_recipient msg (workspaceId ctx ++ "-" ++ screenName (Js.fields user)),
                 NotificationRootType)]
  /\ map address_of (published (run (per_user ctx msg user)))
     = [Some (workspaceId ctx ++ "-" ++ screenName (Js.fields user))%string].
Proof.
  intros Hl Hne. unfold run. rewrite legacy_per_user_run, per_user_run.
  unfold legacy_per_user_events, per_user_events. cbv zeta. rewrite Hl.
  cbn [get_or Js.truthy Js.template snd].
  destruct (screenName (Js.fields user)); [congruence | repeat split].
Qed.

(** X20. The earlier revision throws, before anything is sent, for every
    forwarded message without destinations when the context has no source,
    and when it has a web source without a web block. *)
Theorem legacy_throws_without_source_or_web_block
        listener rt message destinations options ctx :
  proceeds listener rt = true ->
  isSlackMessage message = true ->
  ignore_of options = false ->
  no_destinations destinations = true ->
  source ctx = None
  \/ (exists s, source ctx = Some s /\ user_agent s = "web" /\ web s = None) ->
  Legacy.messageSent JSON_stringify isSlackMessage
                     listener rt message destinations options ctx = None.
Proof.
  intros Hp Hs Hi Hd H.
  rewrite (legacy_messageSent_forwarded _ _ _ _ _ _ Hp Hs Hi). cbv zeta. rewrite Hd.
  unfold Legacy.response. destruct H as [-> | [s [-> [-> ->]]]]; reflexivity.
Qed.

(** X21. The earlier revision, for a forwarded message without destinations
    whose request came from a web session: no identity lookup is made and
    one user notification is sent, a copy of the record built for the
    message with the login of the web block, whether or not the web block
    has an identity. *)
Theorem legacy_response_to_web_origin
        listener rt message destinations options ctx s wb :
  proceeds listener rt = true ->
  isSlackMessage message = true ->
  ignore_of options = false ->
  no_destinations destinations = true ->
  source ctx = Some s ->
  user_agent s = "web" ->
  web s = Some wb ->
  let msg := Legacy.msg_of JSON_stringify options rt message
                           (Legacy.actions_of ctx message) in
  exists p,
    Legacy.messageSent JSON_stringify isSlackMessage
                       listener rt message destinations options ctx = Some p
    /\ run p = mkWorld [] [ {| Legacy.payload := msg;
                               Legacy.login_field := Some (web_login wb);
                               Legacy.rootType := UserNotificationRootType |} ].
Proof.
  intros Hp Hs Hi Hd Hsrc Hua Hweb msg.
  rewrite (legacy_messageSent_forwarded _ _ _ _ _ _ Hp Hs Hi). cbv zeta. rewrite Hd.
  unfold Legacy.response. rewrite Hsrc, Hua, Hweb. cbn [String.eqb].
  eexists. split; [reflexivity|].
  unfold run, send, Legacy.user_notification. cbn. now rewrite cloneDeep_id.
Qed.

(** X22. The earlier revision, for a forwarded message without destinations
    whose request came from a chat session: one identity lookup is made for
    the team id and user name of the session; a login that comes back is put
    into the one user notification that is sent, and without one nothing is
    sent. *)
Theorem legacy_response_to_chat_origin
        listener rt message destinations options ctx s :
  proceeds listener rt = true ->
  isSlackMessage message = true ->
  ignore_of options = false ->
  no_destinations destinations = true ->
  source ctx = Some s ->
  user_agent s = "slack" ->
  let msg := Legacy.msg_of JSON_stringify options rt message
                           (Legacy.actions_of ctx message) in
  let variables := {| teamId := slack_team_id (slack s);
                      screenName := slack_user_name (slack s) |} in
  let l := get_login (graphClient ctx variables) in
  exists p,
    Legacy.messageSent JSON_stringify isSlackMessage
                       listener rt message destinations options ctx = Some p
    /\ lookups (run p) = [variables]
    /\ published (run p)
       = if Js.truthy l
         then [ {| Legacy.payload := msg;
                   Legacy.login_field := Some l;
                   Legacy.rootType := UserNotificationRootType |} ]
         else [].
Proof.
  intros Hp Hs Hi Hd Hsrc Hua msg variables l.
  rewrite (legacy_messageSent_forwarded _ _ _ _ _ _ Hp Hs Hi). cbv zeta. rewrite Hd.
  unfold Legacy.response. rewrite Hsrc, Hua. cbn [String.eqb].
  eexists. split; [reflexivity|].
  unfold run, bind, query. cbv zeta. fold variables. fold l.
  destruct (Js.truthy l); unfold send, resolve, Legacy.user_notification; cbn;
    rewrite ?cloneDeep_id; split; reflexivity.
Qed.

(** Every record the earlier revision sends holds the record built for the
    message. *)
Lemma legacy_published_payload listener rt message destinations options ctx p e :
  Legacy.messageSent JSON_stringify isSlackMessage
                     listener rt message destinations options ctx = Some p ->
  In e (published (run p)) ->
  Legacy.payload e
  = Legacy.msg_of JSON_stringify options rt message (Legacy.actions_of ctx message).
Proof.
  unfold Legacy.messageSent.
  destruct (proceeds listener rt); [|intros [= <-] []].
  destruct (isSlackMessage message); cbn [andb]; [|intros [= <-] []].
  destruct (ignore_of options); cbn [negb]; [intros [= <-] []|].
  set (msg := Legacy.msg_of JSON_stringify options rt message
                            (Legacy.actions_of ctx message)).
  destruct (no_destinations destinations).
  - unfold Legacy.response. destruct (source ctx) as [s|]; [|discriminate].
    destruct (String.eqb (user_agent s) "web").
    + destruct (web s) as [wb|]; [|discriminate]. intros [= <-] [<-|[]].
      cbn. apply cloneDeep_id.
    + destruct (String.eqb (user_agent s) "slack"); intros [= <-].
      * unfold run, bind, query. cbv zeta.
        destruct (Js.truthy _); cbn; [|intros []].
        intros [<-|[]]. cbn. apply cloneDeep_id.
      * intros [<-|[]]. reflexivity.
  - intros [= <-]. unfold run. rewrite legacy_addressed_run.
    cbn [snd published no_effects app]. intros Hin. apply in_app_or in Hin.
    destruct Hin as [Hin|Hin].
    + destruct (existsb Legacy.has_channel (dest_of destinations)); [|contradiction].
      destruct Hin as [<-|[]]. reflexivity.
    + apply in_flat_map in Hin. destruct Hin as [u [_ Hin]].
      unfold legacy_per_user_events in Hin. cbv zeta in Hin.
      destruct (Js.truthy _); [|contradiction].
      destruct Hin as [<-|[]]. cbn. apply cloneDeep_id.
Qed.

(** X23. With a shape predicate that takes no string for a chat message,
    the earlier revision forwards no string message at all, so that no
    record is ever tagged "text/plain"; every record it sends for an object
    has the serialised object as its body and the slack JSON content
    type. *)
Theorem legacy_sends_serialised_objects_only
        listener rt message destinations options ctx p :
  (forall s, isSlackMessage (MString s) = false) ->
  Legacy.messageSent JSON_stringify isSlackMessage
                     listener rt message destinations options ctx = Some p ->
  match message with
  | MString _ => run p = no_effects
  | MObject o =>
    Forall (fun e => contentType (Legacy.payload e) = SlackJson
                     /\ body (Legacy.payload e) = JSON_stringify o)
           (published (run p))
  end.
Proof.
  intros Hstr Hm. destruct message as [s|o].
  - unfold Legacy.messageSent in Hm. rewrite Hstr in Hm. cbn [andb] in Hm.
    destruct (proceeds listener rt); injection Hm as <-; reflexivity.
  - apply Forall_forall. intros e He.
    rewrite (legacy_published_payload _ _ _ _ _ _ _ _ Hm He). split; reflexivity.
Qed.

End LegacyProperties.

(** ** Channels and registrations *)

Lemma mentioned_users_by_team_and_users (d1 d2 : list Destination) :
  map (fun d => (team d, users d)) d1 = map (fun d => (team d, users d)) d2 ->
  mentioned_users d1 = mentioned_users d2.
Proof.
  revert d2; induction d1 as [|a d1 IH]; intros [|b d2] H; try discriminate; [reflexivity|].
  cbn [map] in H. injection H as Ht Hu H.
  cbn [mentioned_users flat_map]. fold (mentioned_users d1). fold (mentioned_users d2).
  rewrite (IH d2 H). unfold mentions. now rewrite Ht, Hu.
Qed.

(** X24. The listener never looks at the channels of a destination: two
    calls whose destinations agree on teams and user lists, and are both
    empty or both not, leave the same lookups and the same events. *)
Theorem channels_are_not_read
        (JSON_stringify : SlackMessage -> string) (isSlackMessage : Message -> bool)
        listener rt message (d1 d2 : Destinations) options ctx :
  map (fun d => (team d, users d)) (dest_of d1)
  = map (fun d => (team d, users d)) (dest_of d2) ->
  no_destinations d1 = no_destinations d2 ->
  run (messageSent JSON_stringify isSlackMessage listener rt message d1 options ctx)
  = run (messageSent JSON_stringify isSlackMessage listener rt message d2 options ctx).
Proof.
  intros Hm Hn.
  destruct (proceeds listener rt) eqn:Hp;
    [|now rewrite !messageSent_skipped by auto].
  destruct (slackMessage_of isSlackMessage message) as [sm|] eqn:Hs;
    [|now rewrite !messageSent_skipped by auto].
  destruct (ignore_of options) eqn:Hi;
    [now rewrite !messageSent_skipped by auto|].
  rewrite !(messageSent_forwarded _ _ _ _ _ _ _ _ sm Hp Hs Hi). cbv zeta.
  rewrite Hn. destruct (no_destinations d2); [reflexivity|].
  unfold run. rewrite !addressed_run.
  now rewrite (mentioned_users_by_team_and_users _ _ Hm).
Qed.

(** X25. Every action of every published event is a button registered
    under the name of the calling registration. *)
Theorem published_actions_are_registered_buttons
        (JSON_stringify : SlackMessage -> string) (isSlackMessage : Message -> bool)
        listener rt message destinations options ctx :
  Forall (fun e : Event =>
            Forall (fun a => a_type a = Button /\ a_registration a = context_name ctx)
                   (actions (fst e)))
         (published (run (messageSent JSON_stringify isSlackMessage
                                      listener rt message destinations options ctx))).
Proof.
  apply Forall_forall. intros e He.
  apply published_clones in He. destruct He as [sm [a [_ ->]]].
  rewrite with_recipient_fields. cbn [fst actions msg_of].
  apply Forall_forall. intros x Hx. unfold actions_of in Hx.
  apply in_map_iff in Hx. destruct Hx as [cra [<- _]]. split; reflexivity.
Qed.

(** ** The further properties at sample inputs *)

Lemma same_user_spec (x y : ChatUser) : same_user x y = true <-> x = y.
Proof.
  destruct x as [t1 n1], y as [t2 n2]. unfold same_user. cbn [teamId screenName].
  rewrite andb_true_iff, !String.eqb_eq. split.
  - intros [-> ->]. reflexivity.
  - intros [= -> ->]. split; reflexivity.
Qed.

Lemma response_to_web_identity_witness :
  Sample.relay NoDestinations (Sample.ctx (Some Sample.web_source_with_identity))
  = mkWorld [] [(with_recipient Sample.hello_msg "W1-u-7", NotificationRootType)].
Proof.
  exact (proj1 (response_to_web_identity
                  Sample.stringify Sample.isSlackMessage Sample.single Sample.master
                  Sample.hello NoDestinations None
                  (Sample.ctx (Some Sample.web_source_with_identity))
                  Sample.wrapped_hello Sample.web_source_with_identity
                  {| identity := Some {| sub := Js.Str "u-7" |}; web_login := Js.Str "wl" |}
                  {| sub := Js.Str "u-7" |}
                  eq_refl eq_refl eq_refl eq_refl eq_refl eq_refl eq_refl eq_refl)).
Defined.

Lemma destinations_without_users_witness :
  Sample.relay (OneDestination Sample.to_channel) (Sample.ctx None)
  = mkWorld [] [(with_recipient Sample.hello_msg "W1", NotificationRootType)]
  /\ map address_of
         (published (Sample.relay (OneDestination Sample.to_channel) (Sample.ctx None)))
     = [Some "W1"].
Proof.
  assert (Hu : forall d, In d (dest_of (OneDestination Sample.to_channel)) ->
                         users d = None \/ users d = Some [])
    by (intros d [<-|[]]; left; reflexivity).
  destruct (destinations_without_users
              Sample.stringify Sample.isSlackMessage Sample.single Sample.master Sample.hello
              (OneDestination Sample.to_channel) None (Sample.ctx None) Sample.wrapped_hello
              eq_refl eq_refl eq_refl eq_refl Hu) as [Hw [Ha _]].
  split; [exact Hw | exact Ha].
Defined.

Lemma lookups_one_per_mention_witness :
  lookups (Sample.relay (OneDestination Sample.to_al_and_bob) (Sample.ctx None))
  = [Sample.al; Sample.bob].
Proof.
  apply (lookups_one_per_mention
           Sample.stringify Sample.isSlackMessage Sample.single Sample.master Sample.hello
           (OneDestination Sample.to_al_and_bob) None (Sample.ctx None) Sample.wrapped_hello);
    reflexivity.
Defined.

Lemma addressed_message_event_bounds_witness :
  1 <= List.length
         (published (Sample.relay (OneDestination Sample.to_al_and_bob) (Sample.ctx None)))
    <= 1 + List.length
             (lookups (Sample.relay (OneDestination Sample.to_al_and_bob) (Sample.ctx None))).
Proof.
  apply (addressed_message_event_bounds
           Sample.stringify Sample.isSlackMessage Sample.single Sample.master Sample.hello
           (OneDestination Sample.to_al_and_bob) None (Sample.ctx None) Sample.wrapped_hello);
    reflexivity.
Defined.


Lemma present_falsy_login_is_dropped_witness :
  run (per_user Sample.ctx_null Sample.hello_msg (Js.mkObj 0 Sample.bob))
  = mkWorld [Sample.bob] [].
Proof.
  apply (present_falsy_login_is_dropped Sample.ctx_null Sample.hello_msg
                                        (Js.mkObj 0 Sample.bob)).
  left. reflexivity.
Defined.

Lemma response_bounds_witness :
  List.length (lookups (Sample.relay NoDestinations (Sample.ctx (Some Sample.slack_source))))
  <= 1
  /\ List.length
       (published (Sample.relay NoDestinations (Sample.ctx (Some Sample.slack_source))))
     <= 1.
Proof.
  destruct (response_bounds
              Sample.stringify Sample.isSlackMessage Sample.single Sample.master Sample.hello
              NoDestinations None (Sample.ctx (Some Sample.slack_source)) eq_refl)
    as [H1 [H2 _]].
  split; [exact H1 | exact H2].
Defined.

Lemma uniq_by_value_witness :
  NoDup (Lodash.uniq same_user [Sample.bob; Sample.al; Sample.bob])
  /\ (forall x, In x (Lodash.uniq same_user [Sample.bob; Sample.al; Sample.bob])
                <-> In x [Sample.bob; Sample.al; Sample.bob]).
Proof.
  apply (uniq_by_value same_user [Sample.bob; Sample.al; Sample.bob]).
  exact same_user_spec.
Defined.

Lemma legacy_addressed_message_witness :
  exists p,
    Legacy.messageSent Sample.stringify Sample.isSlackMessage
                       Sample.single Sample.master Sample.structured
                       (OneDestination Sample.to_bob) None (Sample.ctx None) = Some p
    /\ lookups (run p) = [Sample.bob]
    /\ List.length (filter legacy_workspace_wide (published (run p))) = 0.
Proof.
  destruct (legacy_addressed_message
              Sample.stringify Sample.isSlackMessage Sample.single Sample.master
              Sample.structured (OneDestination Sample.to_bob) None (Sample.ctx None)
              eq_refl eq_refl eq_refl eq_refl) as [p [Hp [Hl [Hw _]]]].
  exists p. split; [exact Hp|]. split; [exact Hl | exact Hw].
Defined.

Lemma unmatched_user_in_both_revisions_witness :
  run (Legacy.per_user (Sample.ctx None) Sample.hello_msg (Js.mkObj 0 Sample.bob))
  = mkWorld [Sample.bob] []
  /\ run (per_user (Sample.ctx None) Sample.hello_msg (Js.mkObj 0 Sample.bob))
     = mkWorld [Sample.bob]
               [(with_recipient Sample.hello_msg "W1-bob", NotificationRootType)]
  /\ map address_of
         (published (run (per_user (Sample.ctx None) Sample.hello_msg
                                   (Js.mkObj 0 Sample.bob))))
     = [Some "W1-bob"].
Proof.
  assert (Hne : "bob" <> "") by discriminate.
  exact (unmatched_user_in_both_revisions (Sample.ctx None) Sample.hello_msg
                                          (Js.mkObj 0 Sample.bob) eq_refl Hne).
Defined.

Lemma legacy_response_to_web_origin_witness :
  exists p,
    Legacy.messageSent Sample.stringify Sample.isSlackMessage
                       Sample.single Sample.master Sample.structured
                       NoDestinations None
                       (Sample.ctx (Some Sample.web_source_with_identity)) = Some p
    /\ map Legacy.login_field (published (run p)) = [Some (Js.Str "wl")]
    /\ lookups (run p) = [].
Proof.
  destruct (legacy_response_to_web_origin
              Sample.stringify Sample.isSlackMessage Sample.single Sample.master
              Sample.structured NoDestinations None
              (Sample.ctx (Some Sample.web_source_with_identity))
              Sample.web_source_with_identity
              {| identity := Some {| sub := Js.Str "u-7" |}; web_login := Js.Str "wl" |}
              eq_refl eq_refl eq_refl eq_refl eq_refl eq_refl eq_refl) as [p [Hp Hr]].
  exists p. split; [exact Hp|]. rewrite Hr. split; reflexivity.
Defined.

Lemma legacy_response_to_chat_origin_witness :
  exists p,
    Legacy.messageSent Sample.stringify Sample.isSlackMessage
                       Sample.single Sample.master Sample.structured
                       NoDestinations None (Sample.ctx (Some Sample.slack_source)) = Some p
    /\ lookups (run p) = [Sample.al]
    /\ map Legacy.login_field (published (run p)) = [Some (Js.Str "alice")].
Proof.
  destruct (legacy_response_to_chat_origin
              Sample.stringify Sample.isSlackMessage Sample.single Sample.master
              Sample.structured NoDestinations None (Sample.ctx (Some Sample.slack_source))
              Sample.slack_source
              eq_refl eq_refl eq_refl eq_refl eq_refl eq_refl) as [p [Hp [Hl He]]].
  exists p. split; [exact Hp|]. split; [exact Hl|]. rewrite He. reflexivity.
Defined.

Lemma legacy_sends_serialised_objects_only_witness :
  Forall (fun e => contentType (Legacy.payload e) = SlackJson
                   /\ body (Legacy.payload e) = "build done")
         (published
            (run (Legacy.addressed
                    (Sample.ctx None)
                    (Legacy.msg_of Sample.stringify None Sample.master Sample.structured
                                   (Legacy.actions_of (Sample.ctx None) Sample.structured))
                    (OneDestination Sample.to_channel)))).
Proof.
  assert (Hstr : forall s, Sample.isSlackMessage (MString s) = false)
    by (intros s; reflexivity).
  exact (legacy_sends_serialised_objects_only
           Sample.stringify Sample.isSlackMessage Sample.single Sample.master
           Sample.structured (OneDestination Sample.to_channel) None (Sample.ctx None)
           _ Hstr eq_refl).
Defined.

Lemma legacy_throws_without_source_or_web_block_witness :
  Legacy.messageSent Sample.stringify Sample.isSlackMessage
                     Sample.single Sample.master Sample.structured
                     NoDestinations None (Sample.ctx None) = None.
Proof.
  apply (legacy_throws_without_source_or_web_block
           Sample.stringify Sample.isSlackMessage Sample.single Sample.master
           Sample.structured NoDestinations None (Sample.ctx None));
    try reflexivity.
  left. reflexivity.
Defined.

(** C9, as first stated: every attachment list would give the sequence of
    its actions.  A list with an action that was made without a command
    gives none: reading the command of that action throws, and the call
    ends there with nothing sent. *)
Lemma actions_of_every_attachment_list_counterexample :
  raw_concatenated_actions (raw_attachments_or_none Sample.with_plain_action)
  = [Sample.raw_a; Sample.plain_action]
  /\ Raw.actions_of (Sample.ctx None) Sample.with_plain_action = None
  /\ Raw.messageSent Sample.raw_stringify Sample.raw_isSlackMessage
                     Sample.single Sample.master (Raw.RObject Sample.with_plain_action)
                     NoDestinations None (Sample.ctx None) = None.
Proof. repeat split. Qed.

Lemma actions_flattened_in_order_witness :
  exists acts,
    Raw.actions_of (Sample.ctx None)
      {| Raw.raw_text := None;
         Raw.raw_attachments :=
           Some [ {| Raw.raw_fallback := "one";
                     Raw.raw_actions := Some [Some Sample.raw_a; None; Some Sample.raw_b] |};
                  {| Raw.raw_fallback := "none"; Raw.raw_actions := None |};
                  {| Raw.raw_fallback := "two";
                     Raw.raw_actions := Some [Some Sample.raw_c] |} ] |}
    = Some acts
    /\ Forall2 (made_from (Sample.ctx None))
               [Sample.raw_a; Sample.raw_b; Sample.raw_c] acts.
Proof.
  apply (actions_flattened_in_order
           (Sample.ctx None) None
           [ {| Raw.raw_fallback := "one";
                Raw.raw_actions := Some [Some Sample.raw_a; None; Some Sample.raw_b] |};
             {| Raw.raw_fallback := "none"; Raw.raw_actions := None |};
             {| Raw.raw_fallback := "two";
                Raw.raw_actions := Some [Some Sample.raw_c] |} ]).
  repeat constructor; discriminate.
Defined.

Lemma channels_are_not_read_witness :
  Sample.relay (OneDestination Sample.to_bob) (Sample.ctx None)
  = Sample.relay (OneDestination Sample.to_bob_in_general) (Sample.ctx None).
Proof.
  apply (channels_are_not_read
           Sample.stringify Sample.isSlackMessage Sample.single Sample.master Sample.hello
           (OneDestination Sample.to_bob) (OneDestination Sample.to_bob_in_general)
           None (Sample.ctx None));
    reflexivity.
Defined.
